(** * Stock_Analysis: the filtering and aggregation core of the three views

    A shallow embedding of [Stock_Analysis.py]: the year validation of the
    sector view, the pandas pipelines of the three views
    ([filter_data_by_sector_and_year], [merge_dataframes],
    [filter_stock_data]), the annotation logic of the monthly chart and the
    handlers that decide between a chart and a message box.

    Conventions.
    - A Python [str] is a [string]; one [ascii] stands for one character.
    - A float is a rational ([Q]); [None] in an [option Q] cell is NaN.
    - A data frame is the list of its rows, in row order; where the code
      reads index labels (the monthly view), a row comes with its label,
      which [read_csv] numbers 0, 1, 2, ...
    - An exception is a value: fallible code returns a [result].
    - What [int(str)] and [pd.to_datetime] make of a text is a parameter of
      the development; [py_int] and [iso_date] are the instances the
      examples run. *)

From Stdlib Require Import ZArith QArith Qminmax List String Ascii Bool Lia.
From Stdlib Require Import Sorting.Sorted Permutation.
From Stdlib Require Import DecimalString.
Import ListNotations.

Local Open Scope string_scope.
Local Open Scope Z_scope.

(** ** Exceptions *)

Inductive PyError : Type :=
| ValueError
| IndexError
| AttributeError.

Inductive result (A : Type) : Type :=
| Ok (a : A)
| Raise (e : PyError).

Arguments Ok {A} a.
Arguments Raise {A} e.

Definition bind {A B : Type} (m : result A) (k : A -> result B) : result B :=
  match m with
  | Ok a => k a
  | Raise e => Raise e
  end.

Notation "x <- m ;; k" := (bind m (fun x => k))
  (at level 61, m at next level, right associativity).

Fixpoint mapM {A B : Type} (f : A -> result B) (l : list A) : result (list B) :=
  match l with
  | [] => Ok []
  | a :: l' => b <- f a ;; bs <- mapM f l' ;; Ok (b :: bs)
  end.

(** ** Python's [int(str)], on one-byte characters

    Surrounding white space is dropped, one sign is allowed, and the digits
    may be separated by single underscores. *)

Definition is_space (c : ascii) : bool :=
  let n := nat_of_ascii c in
  ((9 <=? n) && (n <=? 13) || (28 <=? n) && (n <=? 32)
   || (n =? 133) || (n =? 160))%nat.

Definition digit_of (c : ascii) : option Z :=
  let n := Z.of_nat (nat_of_ascii c) in
  if (48 <=? n) && (n <=? 57) then Some (n - 48) else None.

Fixpoint drop_spaces (l : list ascii) : list ascii :=
  match l with
  | c :: l' => if is_space c then drop_spaces l' else l
  | [] => []
  end.

Definition strip (l : list ascii) : list ascii :=
  rev (drop_spaces (rev (drop_spaces l))).

Fixpoint digits_value (acc : Z) (after_digit : bool) (l : list ascii) : option Z :=
  match l with
  | [] => if after_digit then Some acc else None
  | c :: l' =>
      match digit_of c with
      | Some d => digits_value (acc * 10 + d) true l'
      | None =>
          if (Ascii.eqb c "_") && after_digit
          then match l' with
               | [] => None
               | _ => digits_value acc false l'
               end
          else None
      end
  end.

Definition py_int (s : string) : option Z :=
  match strip (list_ascii_of_string s) with
  | "-"%char :: l => option_map Z.opp (digits_value 0 false l)
  | "+"%char :: l => digits_value 0 false l
  | l => digits_value 0 false l
  end.

(** [str(n)] of an integer. *)
Definition py_str (n : Z) : string := NilZero.string_of_int (Z.to_int n).

(** ** Sector view: validation of the two year fields *)

Section ValidateYears.

(** [int] is the conversion the interpreter applies to the field's text;
    [None] is a [ValueError].  [py_int] is its instance on one-byte
    characters. *)
Variable int : string -> option Z.

Definition valid_year (y : Z) : bool := (2014 <=? y) && (y <=? 2024).

Definition validate_years (from_year to_year : string) : string :=
  if negb (Nat.eqb (String.length from_year) 4)
     || negb (Nat.eqb (String.length to_year) 4)
  then "'From Year' and 'To Year' must be 4-digit numbers."
  else
    match int from_year with
    | None => "Please enter valid 4-digit years."
    | Some from_year_int =>
        match int to_year with
        | None => "Please enter valid 4-digit years."
        | Some to_year_int =>
            if negb (valid_year from_year_int) || negb (valid_year to_year_int)
            then "Years must be between 2014 and 2024."
            else if from_year_int >? to_year_int
                 then "'From Year' should be <= 'To Year'."
                 else ""
        end
    end.

(** What the specification calls the single valid case. *)
Definition years_valid (from_year to_year : string) : Prop :=
  String.length from_year = 4%nat /\ String.length to_year = 4%nat /\
  exists f t, int from_year = Some f /\ int to_year = Some t /\
              2014 <= f <= 2024 /\ 2014 <= t <= 2024 /\ f <= t.

(** Each way an input can be wrong, as the specification lists them. *)
Definition years_invalid (from_year to_year : string) : Prop :=
  String.length from_year <> 4%nat \/ String.length to_year <> 4%nat \/
  int from_year = None \/ int to_year = None \/
  (exists f, int from_year = Some f /\ ~ 2014 <= f <= 2024) \/
  (exists t, int to_year = Some t /\ ~ 2014 <= t <= 2024) \/
  (exists f t, int from_year = Some f /\ int to_year = Some t /\ f > t).

End ValidateYears.

(** ** The three tables *)

Module Timestamp.
Record t : Type := mk { year : Z; month : Z; day : Z }.

Definition compare (a b : t) : comparison :=
  match year a ?= year b with
  | Eq => match month a ?= month b with
          | Eq => day a ?= day b
          | c => c
          end
  | c => c
  end.

Definition eqb (a b : t) : bool :=
  match compare a b with Eq => true | _ => false end.

Definition lt (a b : t) : Prop := compare a b = Lt.
End Timestamp.

(** A cell of a Date column: the text [read_csv] loaded, or what
    [pd.to_datetime] makes of it.  [NaT] is the missing date (also the
    missing cell of a freshly loaded column). *)
Inductive DateCell : Type :=
| DateStr (s : string)
| DateTs (d : Timestamp.t)
| NaT.

Module Stock.
Record row : Type := mk
  { Date : DateCell;
    Symbol : string;
    Open : option Q;
    High : option Q;
    Low : option Q;
    Close : option Q }.

Definition set_Date (r : row) (d : DateCell) : row :=
  mk d (Symbol r) (Open r) (High r) (Low r) (Close r).
End Stock.

Module Company.
Record row : Type := mk
  { Symbol : string;
    Shortname : string;
    Longname : string;
    Sector : option string;
    Revenuegrowth : option Q }.
End Company.

Module Index.
Record row : Type := mk
  { Date : DateCell;
    SP500 : option Q }.

Definition set_Date (r : row) (d : DateCell) : row := mk d (SP500 r).
End Index.

(** The three frames every window shares: [MainWindow] hands the same
    objects to each view, so a column assignment by one view is seen by all. *)
Record Tables : Type := mkTables
  { stocks_df : list Stock.row;
    companies_df : list Company.row;
    index_df : list Index.row }.

(** A series: index labels with their values, in order. *)
Definition Series : Type := list (DateCell * option Q).

(** ** pandas operations the views use *)

Section Pandas.

(** How [pd.to_datetime] reads one text cell: [None] when it raises,
    [Some None] for a text that denotes no date, [Some (Some d)] otherwise. *)
Variable parse_date : string -> option (option Timestamp.t).

Definition to_datetime_cell (c : DateCell) : result DateCell :=
  match c with
  | DateStr s =>
      match parse_date s with
      | Some (Some d) => Ok (DateTs d)
      | Some None => Ok NaT
      | None => Raise ValueError
      end
  | DateTs d => Ok (DateTs d)
  | NaT => Ok NaT
  end.

(** [pd.to_datetime(column)]: all cells convert, or the call raises. *)
Definition to_datetime (col : list DateCell) : result (list DateCell) :=
  mapM to_datetime_cell col.

(** [df["Date"] = column], for a column of the frame's length. *)
Fixpoint assign_Date {R : Type} (set : R -> DateCell -> R)
  (df : list R) (col : list DateCell) : list R :=
  match df, col with
  | r :: df', d :: col' => set r d :: assign_Date set df' col'
  | _, _ => df
  end.

(** The calendar date a cell denotes, if any. *)
Definition calendar_date (c : DateCell) : option Timestamp.t :=
  match to_datetime_cell c with
  | Ok (DateTs d) => Some d
  | _ => None
  end.

End Pandas.

(** [.dt.year] and [.dt.month] of a cell of a datetime column; NaN ([None])
    for [NaT]. *)
Definition dt_year (c : DateCell) : option Z :=
  match c with DateTs d => Some (Timestamp.year d) | _ => None end.

Definition dt_month (c : DateCell) : option Z :=
  match c with DateTs d => Some (Timestamp.month d) | _ => None end.

(** The [.dt] accessor exists on a datetime column only. *)
Definition is_text (c : DateCell) : bool :=
  match c with DateStr _ => true | _ => false end.

Definition dt_accessor (col : list DateCell) : result unit :=
  if existsb is_text col then Raise AttributeError else Ok tt.

(** Comparisons of a column with a scalar: NaN compares false. *)
Definition ge_scalar (v : option Z) (n : Z) : bool :=
  match v with Some x => n <=? x | None => false end.

Definition le_scalar (v : option Z) (n : Z) : bool :=
  match v with Some x => x <=? n | None => false end.

Definition eq_scalar (v : option Z) (n : Z) : bool :=
  match v with Some x => x =? n | None => false end.

Definition str_eq_scalar (v : option string) (s : string) : bool :=
  match v with Some x => String.eqb x s | None => false end.

Fixpoint dropna (l : list (option Q)) : list Q :=
  match l with
  | [] => []
  | Some v :: l' => v :: dropna l'
  | None :: l' => dropna l'
  end.

Definition Qsum (l : list Q) : Q := fold_right Qplus 0%Q l.

(** [Series.mean()]: missing values are skipped; NaN when nothing is left. *)
Definition mean (l : list (option Q)) : option Q :=
  match dropna l with
  | [] => None
  | vs => Some (Qsum vs / inject_Z (Z.of_nat (List.length vs)))%Q
  end.

Definition Qmax_bool (a b : Q) : Q := if Qle_bool a b then b else a.
Definition Qmin_bool (a b : Q) : Q := if Qle_bool b a then b else a.

(** [Series.max()] and [Series.min()], missing values skipped. *)
Definition col_max (l : list (option Q)) : option Q :=
  match dropna l with
  | [] => None
  | v :: vs => Some (fold_left Qmax_bool vs v)
  end.

Definition col_min (l : list (option Q)) : option Q :=
  match dropna l with
  | [] => None
  | v :: vs => Some (fold_left Qmin_bool vs v)
  end.

(** [Series.isnull().all()]. *)
Definition isnull_all (l : list (option Q)) : bool :=
  forallb (fun v => match v with None => true | Some _ => false end) l.

(** *** Joins on Symbol *)

(** [companies_df[["Symbol", "Sector", "Longname"]]] *)
Module SectorCols.
Record row : Type := mk
  { Symbol : string;
    Sector : option string;
    Longname : string }.

Definition of_company (c : Company.row) : row :=
  mk (Company.Symbol c) (Company.Sector c) (Company.Longname c).
End SectorCols.

(** A row of the left join of the sector view: the stock columns, and the
    company columns, missing when no company has the row's Symbol. *)
Module SectorMerged.
Record row : Type := mk
  { stock : Stock.row;
    Sector : option string;
    Longname : option string }.

Definition Date (m : row) : DateCell := Stock.Date (stock m).
Definition Close (m : row) : option Q := Stock.Close (stock m).
End SectorMerged.

(** [pd.merge(left, right, on="Symbol", how="left")]: the left rows in
    order, each once per matching right row, or once with missing right
    columns. *)
Definition merge_left (left : list Stock.row) (right : list SectorCols.row)
  : list SectorMerged.row :=
  flat_map
    (fun s =>
       match filter (fun c => String.eqb (SectorCols.Symbol c) (Stock.Symbol s)) right with
       | [] => [SectorMerged.mk s None None]
       | cs => map (fun c => SectorMerged.mk s (SectorCols.Sector c)
                               (Some (SectorCols.Longname c))) cs
       end)
    left.

(** [companies_df[["Symbol", "Sector", "Shortname", "Revenuegrowth"]]] *)
Module RevenueCols.
Record row : Type := mk
  { Symbol : string;
    Sector : option string;
    Shortname : string;
    Revenuegrowth : option Q }.

Definition of_company (c : Company.row) : row :=
  mk (Company.Symbol c) (Company.Sector c) (Company.Shortname c)
     (Company.Revenuegrowth c).
End RevenueCols.

(** A row of the inner join of the revenue-growth view, with the [Year]
    column the view adds. *)
Module RevenueMerged.
Record row : Type := mk
  { stock : Stock.row;
    Sector : option string;
    Shortname : string;
    Revenuegrowth : option Q;
    Year : option Z }.

Definition Symbol (m : row) : string := Stock.Symbol (stock m).
Definition Date (m : row) : DateCell := Stock.Date (stock m).
Definition Close (m : row) : option Q := Stock.Close (stock m).
End RevenueMerged.

(** [pd.merge(left, right, on="Symbol")]: the inner join, in the order of
    the left rows. *)
Definition merge_inner (left : list Stock.row) (right : list RevenueCols.row)
  : list (Stock.row * RevenueCols.row) :=
  flat_map
    (fun s =>
       map (fun c => (s, c))
           (filter (fun c => String.eqb (RevenueCols.Symbol c) (Stock.Symbol s)) right))
    left.

(** *** [groupby("Date")["Close"].mean()] *)

Fixpoint insert_key (d : Timestamp.t) (l : list Timestamp.t) : list Timestamp.t :=
  match l with
  | [] => [d]
  | x :: l' =>
      match Timestamp.compare d x with
      | Lt => d :: l
      | Eq => l
      | Gt => x :: insert_key d l'
      end
  end.

(** The group keys: the distinct dates of the column in ascending order;
    rows without a date belong to no group. *)
Definition group_keys (col : list DateCell) : list Timestamp.t :=
  fold_right
    (fun c acc => match c with DateTs d => insert_key d acc | _ => acc end)
    [] col.

Definition date_is (d : Timestamp.t) (c : DateCell) : bool :=
  match c with DateTs d' => Timestamp.eqb d' d | _ => false end.

Definition groupby_Date_Close_mean (df : list SectorMerged.row) : Series :=
  map (fun d =>
         (DateTs d,
          mean (map SectorMerged.Close
                    (filter (fun r => date_is d (SectorMerged.Date r)) df))))
      (group_keys (map SectorMerged.Date df)).

(** [series[label]] *)
Definition series_get (s : Series) (d : Timestamp.t) : option (option Q) :=
  option_map snd (find (fun kv => date_is d (fst kv)) s).

(** ** Sector view: [filter_data_by_sector_and_year] *)

Section SectorView.

Variable parse_date : string -> option (option Timestamp.t).

Definition year_mask (from_year to_year : Z) (c : DateCell) : bool :=
  ge_scalar (dt_year c) from_year && le_scalar (dt_year c) to_year.

(** The method assigns the converted Date columns to the shared frames
    before it filters, so it returns the tables next to its result; an
    exception leaves the assignments made before it. *)
Definition filter_data_by_sector_and_year
  (self : Tables) (selected_sector : string) (from_year to_year : Z)
  : result (Series * Series) * Tables :=
  match to_datetime parse_date (map Stock.Date (stocks_df self)) with
  | Raise e => (Raise e, self)
  | Ok stock_dates =>
      let self1 :=
        mkTables (assign_Date Stock.set_Date (stocks_df self) stock_dates)
                 (companies_df self) (index_df self) in
      match to_datetime parse_date (map Index.Date (index_df self1)) with
      | Raise e => (Raise e, self1)
      | Ok index_dates =>
          let self2 :=
            mkTables (stocks_df self1) (companies_df self1)
                     (assign_Date Index.set_Date (index_df self1) index_dates) in
          let merged_df :=
            merge_left (stocks_df self2)
                       (map SectorCols.of_company (companies_df self2)) in
          (_ <- dt_accessor (map SectorMerged.Date merged_df) ;;
           let sector_df :=
             filter (fun r =>
                       str_eq_scalar (SectorMerged.Sector r) selected_sector
                       && year_mask from_year to_year (SectorMerged.Date r))
                    merged_df in
           let sector_performance := groupby_Date_Close_mean sector_df in
           _ <- dt_accessor (map Index.Date (index_df self2)) ;;
           let index_performance :=
             map (fun r => (Index.Date r, Index.SP500 r))
                 (filter (fun r => year_mask from_year to_year (Index.Date r))
                         (index_df self2)) in
           Ok (sector_performance, index_performance),
           self2)
      end
  end.

End SectorView.

(** ** Revenue-growth view: [merge_dataframes] *)

Section RevenueView.

Variable parse_date : string -> option (option Timestamp.t).

Definition set_joined_Date (j : Stock.row * RevenueCols.row) (d : DateCell)
  : Stock.row * RevenueCols.row :=
  (Stock.set_Date (fst j) d, snd j).

(** [merged_df["Year"] = merged_df["Date"].dt.year] *)
Definition with_Year (j : Stock.row * RevenueCols.row) : RevenueMerged.row :=
  RevenueMerged.mk (fst j) (RevenueCols.Sector (snd j))
    (RevenueCols.Shortname (snd j)) (RevenueCols.Revenuegrowth (snd j))
    (dt_year (Stock.Date (fst j))).

(** The method works on the frame the join made; the shared tables are
    read only. *)
Definition merge_dataframes (self : Tables) (selected_year : Z)
  : result (list RevenueMerged.row) :=
  let merged_df :=
    merge_inner (stocks_df self)
                (map RevenueCols.of_company (companies_df self)) in
  dates <- to_datetime parse_date (map (fun j => Stock.Date (fst j)) merged_df) ;;
  let merged_df := assign_Date set_joined_Date merged_df dates in
  _ <- dt_accessor (map (fun j => Stock.Date (fst j)) merged_df) ;;
  let merged_df := map with_Year merged_df in
  Ok (filter (fun m => eq_scalar (RevenueMerged.Year m) selected_year) merged_df).

End RevenueView.

(** ** Monthly view: [filter_stock_data] and the annotated chart *)

(** A frame with its index labels.  [read_csv] labels the rows 0, 1, 2, ...
    and a boolean selection keeps the labels. *)
Definition Indexed (A : Type) : Type := list (nat * A).

Definition range_index {A : Type} (df : list A) : Indexed A :=
  combine (seq 0 (List.length df)) df.

Definition filter_stock_data
  (stock_df : list Stock.row) (companies_df : list Company.row)
  (company_shortname : string) (month year : Z)
  : result (Indexed Stock.row) :=
  match filter (fun c => String.eqb (Company.Shortname c) company_shortname)
               companies_df with
  | [] => Raise IndexError
  | c :: _ =>
      let company_symbol := Company.Symbol c in
      _ <- dt_accessor (map Stock.Date stock_df) ;;
      Ok (filter (fun ir =>
                    String.eqb (Stock.Symbol (snd ir)) company_symbol
                    && eq_scalar (dt_month (Stock.Date (snd ir))) month
                    && eq_scalar (dt_year (Stock.Date (snd ir))) year)
                 (range_index stock_df))
  end.

Record Trace : Type := mkTrace
  { trace_x : list DateCell;
    trace_y : list (option Q);
    trace_mode : string;
    trace_name : string }.

(** An annotation; its text is [label] followed by the printed [y]. *)
Record Annotation : Type := mkAnnotation
  { ann_x : list DateCell;
    ann_y : option Q;
    ann_label : string;
    ann_showarrow : bool;
    ann_arrowhead : Z }.

Record Figure : Type := mkFigure
  { traces : list Trace;
    annotations : list Annotation;
    fig_title : string;
    xaxis_title : string;
    yaxis_title : string }.

Definition add_trace (fig : Figure) (t : Trace) : Figure :=
  mkFigure (traces fig ++ [t]) (annotations fig)
           (fig_title fig) (xaxis_title fig) (yaxis_title fig).

Definition add_annotation (fig : Figure) (a : Annotation) : Figure :=
  mkFigure (traces fig) (annotations fig ++ [a])
           (fig_title fig) (xaxis_title fig) (yaxis_title fig).

Definition update_layout (fig : Figure) (title x y : string) : Figure :=
  mkFigure (traces fig) (annotations fig) title x y.

Definition is_value (m : Q) (v : option Q) : bool :=
  match v with Some x => Qeq_bool x m | None => false end.

(** [Series.idxmax()] and [Series.idxmin()]: the label of the first row
    that holds the extremum. *)
Definition idxmax (col : Indexed (option Q)) : option nat :=
  match col_max (map snd col) with
  | Some m => option_map fst (find (fun iv => is_value m (snd iv)) col)
  | None => None
  end.

Definition idxmin (col : Indexed (option Q)) : option nat :=
  match col_min (map snd col) with
  | Some m => option_map fst (find (fun iv => is_value m (snd iv)) col)
  | None => None
  end.

Definition column {A B : Type} (f : A -> B) (df : Indexed A) : Indexed B :=
  map (fun ir => (fst ir, f (snd ir))) df.

(** [df.loc[label]["Date"]]: the Date of the rows with that label (one row,
    while labels are distinct). *)
Definition loc_Date (df : Indexed Stock.row) (label : option nat) : list DateCell :=
  match label with
  | Some i => map (fun ir => Stock.Date (snd ir))
                  (filter (fun ir => Nat.eqb (fst ir) i) df)
  | None => []
  end.

Definition add_price_annotations
  (fig : Figure) (filtered_stock : Indexed Stock.row)
  (high_price low_price : option Q) : Figure :=
  let fig :=
    if negb (isnull_all (map (fun ir => Stock.High (snd ir)) filtered_stock))
    then add_annotation fig
           (mkAnnotation
              (loc_Date filtered_stock (idxmax (column Stock.High filtered_stock)))
              high_price "Highest Price: " true 1)
    else fig in
  if negb (isnull_all (map (fun ir => Stock.Low (snd ir)) filtered_stock))
  then add_annotation fig
         (mkAnnotation
            (loc_Date filtered_stock (idxmin (column Stock.Low filtered_stock)))
            low_price "Lowest Price: " true 1)
  else fig.

(** [plot_stock_prices], up to [fig.show()]: the figure it shows. *)
Definition plot_stock_prices
  (filtered_stock : Indexed Stock.row) (company_shortname : string)
  (month year : Z) : Figure :=
  let high_price := col_max (map (fun ir => Stock.High (snd ir)) filtered_stock) in
  let low_price := col_min (map (fun ir => Stock.Low (snd ir)) filtered_stock) in
  let fig := mkFigure [] [] "" "" "" in
  let fig :=
    add_trace fig
      (mkTrace (map (fun ir => Stock.Date (snd ir)) filtered_stock)
               (map (fun ir => Stock.High (snd ir)) filtered_stock)
               "lines" "High Price") in
  let fig :=
    add_trace fig
      (mkTrace (map (fun ir => Stock.Date (snd ir)) filtered_stock)
               (map (fun ir => Stock.Low (snd ir)) filtered_stock)
               "lines" "Low Price") in
  let fig := add_price_annotations fig filtered_stock high_price low_price in
  update_layout fig
    ("Stock Prices for " ++ company_shortname ++ " - "
       ++ py_str month ++ "/" ++ py_str year)
    "Date" "Price".

(** ** The Analyze handlers: a chart or a message box *)

Inductive Event : Type :=
| MessageBoxWarning (title text : string)
| SectorChart (sector_performance index_performance : Series) (title : string)
| RevenueScatter (merged_df : list RevenueMerged.row) (title : string)
| MonthlyChart (fig : Figure).

Definition is_chart (e : Event) : bool :=
  match e with MessageBoxWarning _ _ => false | _ => true end.

Definition is_no_data_notice (e : Event) : bool :=
  match e with
  | MessageBoxWarning title _ => String.eqb title "No Data"
  | _ => false
  end.

Section Handlers.

Variable int : string -> option Z.
Variable parse_date : string -> option (option Timestamp.t).

Definition perform_sector_analysis
  (self : Tables) (selected_sector from_year to_year : string)
  : result Event * Tables :=
  if negb (String.eqb (validate_years int from_year to_year) "")
  then (Ok (MessageBoxWarning "Input Error" (validate_years int from_year to_year)),
        self)
  else
    match int from_year, int to_year with
    | Some f, Some t =>
        let (r, self') :=
          filter_data_by_sector_and_year parse_date self selected_sector f t in
        (p <- r ;;
         Ok (SectorChart (fst p) (snd p)
               ("Sector Performance Analysis: " ++ selected_sector
                  ++ " (" ++ py_str f ++ "-" ++ py_str t ++ ")")),
         self')
    | _, _ => (Raise ValueError, self)
    end.

(** [selected_year] is the year the combo box holds (2014 to 2024). *)
Definition perform_analysis (self : Tables) (selected_year : Z) : result Event :=
  merged_df <- merge_dataframes parse_date self selected_year ;;
  match merged_df with
  | [] =>
      Ok (MessageBoxWarning "No Data"
            ("No data available for the year " ++ py_str selected_year ++ "."))
  | _ =>
      Ok (RevenueScatter merged_df
            ("Revenue Growth vs. Stock Performance ("
               ++ py_str selected_year ++ ")"))
  end.

(** [MonthlyStockAnalysisGUI.__init__] converts the shared stock dates. *)
Definition MonthlyStockAnalysisGUI_init (self : Tables) : result unit * Tables :=
  match to_datetime parse_date (map Stock.Date (stocks_df self)) with
  | Raise e => (Raise e, self)
  | Ok dates =>
      (Ok tt,
       mkTables (assign_Date Stock.set_Date (stocks_df self) dates)
                (companies_df self) (index_df self))
  end.

Definition analyze_stock
  (self : Tables) (company_shortname : string) (month year : Z) : result Event :=
  filtered_stock <-
    filter_stock_data (stocks_df self) (companies_df self)
                      company_shortname month year ;;
  match filtered_stock with
  | [] => Ok (MessageBoxWarning "No Data" "Data available only until 02-2024")
  | _ => Ok (MonthlyChart (plot_stock_prices filtered_stock company_shortname month year))
  end.

(** One press of an Analyze button of the sector or the revenue-growth
    view, with what the pipeline behind it returned. *)
Inductive Analyze : Type :=
| AnalyzeSector (selected_sector : string) (from_year to_year : Z)
| AnalyzeRevenue (selected_year : Z).

Inductive Outcome : Type :=
| SectorOutcome (r : result (Series * Series))
| RevenueOutcome (r : result (list RevenueMerged.row)).

Definition analyze (a : Analyze) (self : Tables) : Outcome * Tables :=
  match a with
  | AnalyzeSector s f t =>
      let (r, self') := filter_data_by_sector_and_year parse_date self s f t in
      (SectorOutcome r, self')
  | AnalyzeRevenue y => (RevenueOutcome (merge_dataframes parse_date self y), self)
  end.

End Handlers.

(** ** A date reader for the examples: [YYYY-MM-DD], the format of the
    data files; the empty text denotes no date. *)

Definition digits_fixed (l : list ascii) : option Z :=
  fold_left
    (fun acc c =>
       match acc, digit_of c with
       | Some a, Some d => Some (a * 10 + d)
       | _, _ => None
       end)
    l (Some 0).

Definition is_leap (y : Z) : bool :=
  ((y mod 4 =? 0) && negb (y mod 100 =? 0)) || (y mod 400 =? 0).

Definition days_in_month (y m : Z) : Z :=
  if m =? 2 then (if is_leap y then 29 else 28)
  else if (m =? 4) || (m =? 6) || (m =? 9) || (m =? 11) then 30
  else 31.

Definition iso_date (s : string) : option (option Timestamp.t) :=
  match list_ascii_of_string s with
  | [] => Some None
  | [y1; y2; y3; y4; "-"%char; m1; m2; "-"%char; d1; d2] =>
      match digits_fixed [y1; y2; y3; y4], digits_fixed [m1; m2],
            digits_fixed [d1; d2] with
      | Some y, Some m, Some d =>
          if (1 <=? m) && (m <=? 12) && (1 <=? d) && (d <=? days_in_month y m)
          then Some (Some (Timestamp.mk y m d))
          else None
      | _, _, _ => None
      end
  | _ => None
  end.

(** ** What the specification says, in its own terms *)

Section SpecTerms.

Variable parse_date : string -> option (option Timestamp.t).

(** The cell [pd.to_datetime] leaves in place of [c] when it succeeds. *)
Definition converted (c : DateCell) : DateCell :=
  match to_datetime_cell parse_date c with
  | Ok d => d
  | Raise _ => c
  end.

Definition to_datetime_succeeds (c : DateCell) : Prop :=
  exists c', to_datetime_cell parse_date c = Ok c'.

Definition convert_stock (s : Stock.row) : Stock.row :=
  Stock.set_Date s (converted (Stock.Date s)).

Definition convert_index (r : Index.row) : Index.row :=
  Index.set_Date r (converted (Index.Date r)).

(** The shared tables once both Date columns are converted. *)
Definition converted_tables (T : Tables) : Tables :=
  mkTables (map convert_stock (stocks_df T)) (companies_df T)
           (map convert_index (index_df T)).

(** The two selections [filter_data_by_sector_and_year] makes, named. *)
Definition sector_selection
  (stocks : list Stock.row) (companies : list Company.row)
  (selected_sector : string) (from_year to_year : Z) : list SectorMerged.row :=
  filter (fun r => str_eq_scalar (SectorMerged.Sector r) selected_sector
                   && year_mask from_year to_year (SectorMerged.Date r))
         (merge_left stocks (map SectorCols.of_company companies)).

Definition index_selection
  (index : list Index.row) (from_year to_year : Z) : Series :=
  map (fun r => (Index.Date r, Index.SP500 r))
      (filter (fun r => year_mask from_year to_year (Index.Date r)) index).

(** The joined frame of the revenue-growth view once its Date column is
    converted, and the rows the view keeps for a year. *)
Definition convert_joined (j : Stock.row * RevenueCols.row)
  : Stock.row * RevenueCols.row :=
  (convert_stock (fst j), snd j).

Definition revenue_rows
  (stocks : list Stock.row) (companies : list Company.row) (selected_year : Z)
  : list RevenueMerged.row :=
  filter (fun m => eq_scalar (RevenueMerged.Year m) selected_year)
         (map with_Year
              (map convert_joined
                   (merge_inner stocks (map RevenueCols.of_company companies)))).

Definition joined_Date (j : Stock.row * RevenueCols.row) : DateCell :=
  Stock.Date (fst j).

Definition dated_close (m : SectorMerged.row) : DateCell * option Q :=
  (SectorMerged.Date m, SectorMerged.Close m).

(** The company records of a sector that carry a Symbol. *)
Definition sector_companies
  (companies : list Company.row) (sector sym : string) : list Company.row :=
  filter (fun c => String.eqb (Company.Symbol c) sym
                   && str_eq_scalar (Company.Sector c) sector)
         companies.

Definition in_years (from_year to_year : Z) (d : Timestamp.t) : bool :=
  (from_year <=? Timestamp.year d) && (Timestamp.year d <=? to_year).

(** The rows of a sector in a window of years: every stock row dated in
    the window, once per company record of the sector with its Symbol, as
    its calendar date and its Close. *)
Definition sector_rows
  (T : Tables) (sector : string) (from_year to_year : Z)
  : list (Timestamp.t * option Q) :=
  flat_map
    (fun s =>
       match calendar_date parse_date (Stock.Date s) with
       | Some d =>
           if in_years from_year to_year d
           then map (fun _ => (d, Stock.Close s))
                    (sector_companies (companies_df T) sector (Stock.Symbol s))
           else []
       | None => []
       end)
    (stocks_df T).

Definition closes_on (d : Timestamp.t) (rows : list (Timestamp.t * option Q))
  : list (option Q) :=
  map snd (filter (fun p => Timestamp.eqb (fst p) d) rows).

(** A row of the join of the two tables on Symbol whose date falls in
    year [y], with the columns the revenue-growth view keeps. *)
Definition joined_in_year (T : Tables) (y : Z) (m : RevenueMerged.row) : Prop :=
  exists s c d,
    In s (stocks_df T) /\ In c (companies_df T) /\
    Company.Symbol c = Stock.Symbol s /\
    calendar_date parse_date (Stock.Date s) = Some d /\
    Timestamp.year d = y /\
    m = RevenueMerged.mk (Stock.set_Date s (DateTs d)) (Company.Sector c)
          (Company.Shortname c) (Company.Revenuegrowth c) (Some y).

Definition stock_key (s : Stock.row) : string * option Timestamp.t :=
  (Stock.Symbol s, calendar_date parse_date (Stock.Date s)).

Definition merged_key (m : RevenueMerged.row) : string * DateCell :=
  (RevenueMerged.Symbol m, RevenueMerged.Date m).

(** Two stock rows agree on every column but Date, whose cell is the old
    one or its conversion. *)
Definition stock_converted (r r' : Stock.row) : Prop :=
  Stock.Symbol r' = Stock.Symbol r /\ Stock.Open r' = Stock.Open r /\
  Stock.High r' = Stock.High r /\ Stock.Low r' = Stock.Low r /\
  Stock.Close r' = Stock.Close r /\
  (Stock.Date r' = Stock.Date r
   \/ to_datetime_cell parse_date (Stock.Date r) = Ok (Stock.Date r')).

Definition index_converted (r r' : Index.row) : Prop :=
  Index.SP500 r' = Index.SP500 r /\
  (Index.Date r' = Index.Date r
   \/ to_datetime_cell parse_date (Index.Date r) = Ok (Index.Date r')).

End SpecTerms.

Definition has_value (col : list (option Q)) : Prop := exists v, In (Some v) col.

Definition Highs (df : Indexed Stock.row) : list (option Q) :=
  map (fun ir => Stock.High (snd ir)) df.

Definition Lows (df : Indexed Stock.row) : list (option Q) :=
  map (fun ir => Stock.Low (snd ir)) df.

Definition high_annotations (fig : Figure) : list Annotation :=
  filter (fun a => String.eqb (ann_label a) "Highest Price: ") (annotations fig).

Definition low_annotations (fig : Figure) : list Annotation :=
  filter (fun a => String.eqb (ann_label a) "Lowest Price: ") (annotations fig).

Definition eq_dec_Timestamp (a b : Timestamp.t) : {a = b} + {a <> b}.
Proof. decide equality; apply Z.eq_dec. Defined.

(** The distinct dates of a list of dated rows. *)
Definition distinct_dates (rows : list (Timestamp.t * option Q)) : list Timestamp.t :=
  nodup eq_dec_Timestamp (map fst rows).

(** ** Sample tables *)

Definition px (n : Z) : option Q := Some (inject_Z n).

Definition sample_companies : list Company.row :=
  [ Company.mk "AAPL" "Apple Inc." "Apple Inc." (Some "Technology") (Some (2 # 100));
    Company.mk "MSFT" "Microsoft" "Microsoft Corporation" (Some "Technology") (Some (17 # 100));
    Company.mk "XOM" "Exxon Mobil" "Exxon Mobil Corporation" (Some "Energy") (Some (-4 # 100)) ].

Definition sample_stocks : list Stock.row :=
  [ Stock.mk (DateStr "2020-01-02") "AAPL" (px 74) (px 75) (px 73) (px 75);
    Stock.mk (DateStr "2020-01-02") "MSFT" (px 158) (px 160) (px 157) (px 161);
    Stock.mk (DateStr "2020-01-02") "ZZZZ" (px 1) (px 2) (px 1) (px 1000);
    Stock.mk (DateStr "2020-01-03") "AAPL" (px 74) (px 76) (px 74) None;
    Stock.mk (DateStr "2020-01-03") "XOM" (px 70) (px 71) (px 69) (px 70);
    Stock.mk (DateStr "2021-03-01") "AAPL" (px 123) None (px 122) (px 127);
    Stock.mk (DateStr "2015-06-01") "MSFT" (px 47) (px 48) (px 46) (px 47) ].

Definition sample_index : list Index.row :=
  [ Index.mk (DateStr "2015-06-01") (px 2111);
    Index.mk (DateStr "2020-01-02") (px 3257);
    Index.mk (DateStr "2020-01-03") (px 3234);
    Index.mk (DateStr "2021-03-01") (px 3901) ].

Definition sample : Tables := mkTables sample_stocks sample_companies sample_index.

(** What the sector view returns on the sample for Technology, 2020-2021. *)
Definition sample_sector_series : Series :=
  [ (DateTs (Timestamp.mk 2020 1 2), Some (236 # 2));
    (DateTs (Timestamp.mk 2020 1 3), None);
    (DateTs (Timestamp.mk 2021 3 1), Some (127 # 1)) ].

Definition sample_index_series : Series :=
  [ (DateTs (Timestamp.mk 2020 1 2), px 3257);
    (DateTs (Timestamp.mk 2020 1 3), px 3234);
    (DateTs (Timestamp.mk 2021 3 1), px 3901) ].

(** What the revenue-growth view returns on the sample for 2021. *)
Definition sample_revenue_2021 : list RevenueMerged.row :=
  [ RevenueMerged.mk
      (Stock.mk (DateTs (Timestamp.mk 2021 3 1)) "AAPL" (px 123) None (px 122) (px 127))
      (Some "Technology") "Apple Inc." (Some (2 # 100)) (Some 2021) ].

(** ** The choice lists of the windows *)

(** [Series.unique()]: the values in the order of their first appearance. *)
Fixpoint unique {A : Type} (eqb : A -> A -> bool) (l : list A) : list A :=
  match l with
  | [] => []
  | x :: l' => x :: filter (fun y => negb (eqb x y)) (unique eqb l')
  end.

(** [sorted] on a list of [str]: ascending by character code. *)
Fixpoint insort (s : string) (l : list string) : list string :=
  match l with
  | [] => [s]
  | x :: l' =>
      match String.compare s x with
      | Gt => x :: insort s l'
      | _ => s :: l
      end
  end.

Definition sorted (l : list string) : list string := fold_right insort [] l.

Definition str_lt (a b : string) : Prop := String.compare a b = Lt.

(** [setup_company_combo]: the items of the company combo box. *)
Definition setup_company_combo (companies_df : list Company.row) : list string :=
  sorted (unique String.eqb (map Company.Shortname companies_df)).

(** Cells of a text column that may be missing: [unique] keeps one NaN, and
    [sorted] cannot compare a NaN with a [str] ([None] below is that
    [TypeError]); a list of NaN only is left as it is. *)
Definition cell_eqb (a b : option string) : bool :=
  match a, b with
  | Some x, Some y => String.eqb x y
  | None, None => true
  | _, _ => false
  end.

Definition is_present (c : option string) : bool :=
  match c with Some _ => true | None => false end.

Fixpoint present (l : list (option string)) : list string :=
  match l with
  | [] => []
  | Some x :: l' => x :: present l'
  | None :: l' => present l'
  end.

Definition sorted_cells (l : list (option string)) : option (list (option string)) :=
  if forallb is_present l then Some (map Some (sorted (present l)))
  else if forallb (fun c => negb (is_present c)) l then Some l
  else None.

(** [SectorPerformanceGUI.__init__]: [self.unique_sectors]. *)
Definition unique_sectors (companies_df : list Company.row)
  : option (list (option string)) :=
  sorted_cells (unique cell_eqb (map Company.Sector companies_df)).

(** ** A session on the shared tables *)

Section Session.

Variable parse_date : string -> option (option Timestamp.t).

(** What a user does that can write to the shared tables: opening the
    monthly window (its constructor converts the stock dates) and pressing
    Analyze in the sector or the revenue-growth window.  Opening the other
    windows and pressing Analyze in the monthly window only read. *)
Inductive Action : Type :=
| OpenMonthly
| Press (a : Analyze).

Definition step (x : Action) (self : Tables) : Tables :=
  match x with
  | OpenMonthly => snd (MonthlyStockAnalysisGUI_init parse_date self)
  | Press a => snd (analyze parse_date a self)
  end.

Definition session (history : list Action) (self : Tables) : Tables :=
  fold_left (fun T x => step x T) history self.

(** The index rows of a window of years, as calendar date and level. *)
Definition index_rows (T : Tables) (from_year to_year : Z)
  : list (Timestamp.t * option Q) :=
  flat_map
    (fun r =>
       match calendar_date parse_date (Index.Date r) with
       | Some d => if in_years from_year to_year d then [(d, Index.SP500 r)] else []
       | None => []
       end)
    (index_df T).

(** The tables the constructor of the monthly window leaves when it
    returns: the stock dates converted, the rest as it was. *)
Definition converted_tables_stock_only (T : Tables) : Tables :=
  mkTables (map (convert_stock parse_date) (stocks_df T))
           (companies_df T) (index_df T).

(** The stock rows of a sector in a window of years, each once: the rows
    dated in the window whose Symbol some company record of the sector
    has. *)
Definition sector_stock_rows
  (T : Tables) (sector : string) (from_year to_year : Z)
  : list (Timestamp.t * option Q) :=
  flat_map
    (fun s =>
       match calendar_date parse_date (Stock.Date s) with
       | Some d =>
           if in_years from_year to_year d
              && existsb (fun c => String.eqb (Company.Symbol c) (Stock.Symbol s)
                                   && str_eq_scalar (Company.Sector c) sector)
                         (companies_df T)
           then [(d, Stock.Close s)]
           else []
       | None => []
       end)
    (stocks_df T).

Definition unreadable (c : DateCell) : Prop :=
  to_datetime_cell parse_date c = Raise ValueError.

End Session.

(** * Properties *)

(** ** The model on concrete inputs *)

Example py_int_2014 : py_int "2014" = Some 2014.
Proof. reflexivity. Qed.

Example py_int_spaces : py_int " 20 " = Some 20.
Proof. reflexivity. Qed.

Example py_int_underscore : py_int "2_14" = Some 214.
Proof. reflexivity. Qed.

Example py_int_letters : py_int "20a4" = None.
Proof. reflexivity. Qed.

Example py_int_sign : py_int "-204" = Some (-204).
Proof. reflexivity. Qed.

Example py_str_2020 : py_str 2020 = "2020".
Proof. reflexivity. Qed.

Example iso_date_ok :
  iso_date "2020-02-29" = Some (Some (Timestamp.mk 2020 2 29)).
Proof. reflexivity. Qed.

Example iso_date_bad : iso_date "2021-02-29" = None.
Proof. reflexivity. Qed.

Example validate_ok : validate_years py_int "2014" "2024" = "".
Proof. reflexivity. Qed.

Example validate_short :
  validate_years py_int "201" "2024"
  = "'From Year' and 'To Year' must be 4-digit numbers.".
Proof. reflexivity. Qed.

Example validate_text :
  validate_years py_int "2o14" "2024" = "Please enter valid 4-digit years.".
Proof. reflexivity. Qed.

Example validate_range :
  validate_years py_int "2013" "2024" = "Years must be between 2014 and 2024.".
Proof. reflexivity. Qed.

Example validate_order :
  validate_years py_int "2020" "2019" = "'From Year' should be <= 'To Year'.".
Proof. reflexivity. Qed.

(** ** Year validation *)

Lemma valid_year_spec (y : Z) : valid_year y = true <-> 2014 <= y <= 2024.
Proof. unfold valid_year. rewrite andb_true_iff, !Z.leb_le. tauto. Qed.

Lemma valid_year_false (y : Z) : valid_year y = false <-> ~ 2014 <= y <= 2024.
Proof.
  rewrite <- valid_year_spec. destruct (valid_year y); split; congruence.
Qed.

Lemma validate_years_empty (int : string -> option Z) (from_year to_year : string) :
  validate_years int from_year to_year = "" <-> years_valid int from_year to_year.
Proof.
  unfold validate_years, years_valid.
  destruct (Nat.eqb (String.length from_year) 4) eqn:Lf; simpl.
  2:{ apply Nat.eqb_neq in Lf. split; [discriminate | tauto]. }
  destruct (Nat.eqb (String.length to_year) 4) eqn:Lt; simpl.
  2:{ apply Nat.eqb_neq in Lt. split; [discriminate | tauto]. }
  apply Nat.eqb_eq in Lf, Lt.
  destruct (int from_year) as [f|].
  2:{ split; [discriminate | intros (_ & _ & f & t & H & _); discriminate]. }
  destruct (int to_year) as [t|].
  2:{ split; [discriminate | intros (_ & _ & f' & t & _ & H & _); discriminate]. }
  destruct (valid_year f) eqn:Vf; simpl.
  2:{ apply valid_year_false in Vf.
      split; [discriminate |].
      intros (_ & _ & f' & t' & Hf & _ & R & _). inversion Hf; subst. tauto. }
  destruct (valid_year t) eqn:Vt; simpl.
  2:{ apply valid_year_false in Vt.
      split; [discriminate |].
      intros (_ & _ & f' & t' & _ & Ht & _ & R & _). inversion Ht; subst. tauto. }
  apply valid_year_spec in Vf, Vt.
  destruct (f >? t) eqn:Gt.
  - split; [discriminate |].
    intros (_ & _ & f' & t' & Hf & Ht & _ & _ & Le).
    inversion Hf; inversion Ht; subst. apply Z.gtb_lt in Gt. lia.
  - split; [| reflexivity]. intros _.
    repeat split; auto. exists f, t. rewrite Z.gtb_ltb, Z.ltb_ge in Gt.
    repeat split; auto; lia.
Qed.

Lemma years_invalid_not_valid (int : string -> option Z) (from_year to_year : string) :
  years_invalid int from_year to_year <-> ~ years_valid int from_year to_year.
Proof.
  unfold years_invalid, years_valid. split.
  - intros H (Lf & Lt & f & t & Hf & Ht & Rf & Rt & Le).
    destruct H as [H | [H | [H | [H | [H | [H | H]]]]]]; try congruence.
    + destruct H as (f' & E & N). rewrite Hf in E. inversion E; subst. tauto.
    + destruct H as (t' & E & N). rewrite Ht in E. inversion E; subst. tauto.
    + destruct H as (f' & t' & E1 & E2 & N).
      rewrite Hf in E1. rewrite Ht in E2. inversion E1; inversion E2; subst. lia.
  - intros N.
    destruct (Nat.eq_dec (String.length from_year) 4) as [Lf | Lf]; [| tauto].
    destruct (Nat.eq_dec (String.length to_year) 4) as [Lt | Lt]; [| tauto].
    destruct (int from_year) as [f|] eqn:Hf; [| tauto].
    destruct (int to_year) as [t|] eqn:Ht; [| tauto].
    destruct (valid_year f) eqn:Vf.
    2:{ apply valid_year_false in Vf. do 4 right. left. eauto. }
    destruct (valid_year t) eqn:Vt.
    2:{ apply valid_year_false in Vt. do 5 right. left. eauto. }
    apply valid_year_spec in Vf, Vt.
    destruct (Z_le_gt_dec f t) as [Le | Gt].
    + exfalso. apply N. repeat split; auto. exists f, t. repeat split; auto; lia.
    + do 6 right. eauto.
Qed.

(** C1. [validate_years] returns a non-empty message exactly when one of
    the listed defects holds (a length other than 4, a text that is no
    integer, a year outside 2014..2024, from after to), and the empty string
    exactly when both texts have four characters, read as integers in
    2014..2024, and from is at most to.  This holds for every reading [int]
    of a text as an integer. *)
Theorem validate_years_correct :
  forall (int : string -> option Z) (from_year to_year : string),
    (years_invalid int from_year to_year
     <-> validate_years int from_year to_year <> "")
    /\ (validate_years int from_year to_year = ""
        <-> years_valid int from_year to_year).
Proof.
  intros int from_year to_year. split.
  - rewrite years_invalid_not_valid, validate_years_empty. tauto.
  - apply validate_years_empty.
Qed.

(** ** [pd.to_datetime] and the column assignment *)

Section Conversion.

Variable parse_date : string -> option (option Timestamp.t).

Lemma to_datetime_cell_converted (c c' : DateCell) :
  to_datetime_cell parse_date c = Ok c' -> converted parse_date c = c'.
Proof. unfold converted. intros ->. reflexivity. Qed.

Lemma to_datetime_cell_not_text (c c' : DateCell) :
  to_datetime_cell parse_date c = Ok c' -> is_text c' = false.
Proof.
  destruct c as [s | t |]; simpl.
  - destruct (parse_date s) as [[t |] |]; intros H; inversion H; reflexivity.
  - intros H; inversion H; reflexivity.
  - intros H; inversion H; reflexivity.
Qed.

Lemma to_datetime_cell_idem (c c' : DateCell) :
  to_datetime_cell parse_date c = Ok c' ->
  to_datetime_cell parse_date c' = Ok c'.
Proof.
  intros H. pose proof (to_datetime_cell_not_text _ _ H) as N.
  destruct c'; simpl in *; congruence.
Qed.

Lemma converted_not_text (c : DateCell) :
  is_text c = false -> converted parse_date c = c.
Proof. destruct c; simpl; intros; try discriminate; reflexivity. Qed.

Lemma calendar_date_converted (c c' : DateCell) :
  to_datetime_cell parse_date c = Ok c' ->
  calendar_date parse_date c = match c' with DateTs t => Some t | _ => None end.
Proof. unfold calendar_date. intros ->. reflexivity. Qed.

Lemma to_datetime_Ok (col ds : list DateCell) :
  to_datetime parse_date col = Ok ds ->
  ds = map (converted parse_date) col /\ Forall (to_datetime_succeeds parse_date) col.
Proof.
  unfold to_datetime. revert ds.
  induction col as [| c col IH]; simpl; intros ds H.
  - inversion H. auto.
  - destruct (to_datetime_cell parse_date c) as [c' |] eqn:E; simpl in H; [| discriminate].
    destruct (mapM (to_datetime_cell parse_date) col) as [ds' |]; simpl in H; [| discriminate].
    inversion H; subst. destruct (IH ds' eq_refl) as [-> F].
    split.
    + f_equal. symmetry. now apply to_datetime_cell_converted.
    + constructor; [now exists c' | assumption].
Qed.

Lemma to_datetime_complete (col : list DateCell) :
  Forall (to_datetime_succeeds parse_date) col ->
  to_datetime parse_date col = Ok (map (converted parse_date) col).
Proof.
  unfold to_datetime. induction 1 as [| c col [c' E] _ IH]; simpl.
  - reflexivity.
  - rewrite E, IH. simpl. now rewrite (to_datetime_cell_converted _ _ E).
Qed.

Lemma converted_ok (col : list DateCell) :
  Forall (to_datetime_succeeds parse_date) col ->
  Forall (fun c => is_text c = false) (map (converted parse_date) col).
Proof.
  induction 1 as [| c col [c' E] _ IH]; simpl; constructor; auto.
  rewrite (to_datetime_cell_converted _ _ E).
  eapply to_datetime_cell_not_text; eauto.
Qed.

Lemma converted_idem (c : DateCell) :
  to_datetime_succeeds parse_date c -> converted parse_date (converted parse_date c) = converted parse_date c.
Proof.
  intros [c' E]. rewrite (to_datetime_cell_converted _ _ E).
  apply to_datetime_cell_converted. eapply to_datetime_cell_idem; eauto.
Qed.

Lemma to_datetime_idem (col ds : list DateCell) :
  to_datetime parse_date col = Ok ds -> to_datetime parse_date ds = Ok ds.
Proof.
  intros H. destruct (to_datetime_Ok _ _ H) as [-> F].
  clear H. induction F as [| c col [c' E] _ IH]; simpl.
  - reflexivity.
  - unfold to_datetime in *. simpl.
    rewrite (to_datetime_cell_converted _ _ E).
    rewrite (to_datetime_cell_idem _ _ E). simpl. rewrite IH. reflexivity.
Qed.

Lemma assign_Date_map {R : Type} (set : R -> DateCell -> R)
  (get : R -> DateCell) (f : DateCell -> DateCell) (df : list R) :
  assign_Date set df (map f (map get df)) = map (fun r => set r (f (get r))) df.
Proof. induction df as [| r df IH]; simpl; [reflexivity | now rewrite IH]. Qed.

Lemma dt_accessor_ok (col : list DateCell) :
  Forall (fun c => is_text c = false) col -> dt_accessor col = Ok tt.
Proof.
  intros F. unfold dt_accessor.
  replace (existsb is_text col) with false; [reflexivity |].
  symmetry. induction F as [| c col H _ IH]; simpl; [reflexivity |].
  now rewrite H, IH.
Qed.

Lemma stock_dates_converted (l : list Stock.row) :
  map Stock.Date (map (convert_stock parse_date) l)
  = map (converted parse_date) (map Stock.Date l).
Proof. rewrite !map_map. reflexivity. Qed.

Lemma index_dates_converted (l : list Index.row) :
  map Index.Date (map (convert_index parse_date) l)
  = map (converted parse_date) (map Index.Date l).
Proof. rewrite !map_map. reflexivity. Qed.

Lemma convert_stock_idem (l : list Stock.row) :
  Forall (to_datetime_succeeds parse_date) (map Stock.Date l) ->
  map (convert_stock parse_date) (map (convert_stock parse_date) l)
  = map (convert_stock parse_date) l.
Proof.
  induction l as [| s l IH]; simpl; intros F; [reflexivity |].
  inversion F; subst. rewrite IH by assumption. f_equal.
  unfold convert_stock, Stock.set_Date. simpl. now rewrite converted_idem.
Qed.

Lemma convert_index_idem (l : list Index.row) :
  Forall (to_datetime_succeeds parse_date) (map Index.Date l) ->
  map (convert_index parse_date) (map (convert_index parse_date) l)
  = map (convert_index parse_date) l.
Proof.
  induction l as [| s l IH]; simpl; intros F; [reflexivity |].
  inversion F; subst. rewrite IH by assumption. f_equal.
  unfold convert_index, Index.set_Date. simpl. now rewrite converted_idem.
Qed.

Lemma cell_ok_converted (col : list DateCell) :
  Forall (to_datetime_succeeds parse_date) col -> Forall (to_datetime_succeeds parse_date) (map (converted parse_date) col).
Proof.
  induction 1 as [| c col [c' E] _ IH]; simpl; constructor; auto.
  rewrite (to_datetime_cell_converted _ _ E). exists c'.
  eapply to_datetime_cell_idem; eauto.
Qed.

End Conversion.

(** ** The sector pipeline, when the dates convert *)

Section SectorPipeline.

Variable parse_date : string -> option (option Timestamp.t).

Lemma merge_left_stock (left : list Stock.row) (right : list SectorCols.row)
  (m : SectorMerged.row) :
  In m (merge_left left right) -> In (SectorMerged.stock m) left.
Proof.
  unfold merge_left. rewrite in_flat_map. intros (s & Hs & Hm).
  destruct (filter _ right) as [| c cs] eqn:E.
  - destruct Hm as [<- | []]. exact Hs.
  - apply in_map_iff in Hm. destruct Hm as (c' & <- & _). exact Hs.
Qed.

Lemma merge_left_dates (P : DateCell -> Prop)
  (left : list Stock.row) (right : list SectorCols.row) :
  Forall P (map Stock.Date left) ->
  Forall P (map SectorMerged.Date (merge_left left right)).
Proof.
  rewrite !Forall_forall. intros H c Hc.
  apply in_map_iff in Hc. destruct Hc as (m & <- & Hm).
  apply H. unfold SectorMerged.Date.
  apply (in_map Stock.Date). eapply merge_left_stock; eauto.
Qed.

Lemma merge_left_app (l1 l2 : list Stock.row) (right : list SectorCols.row) :
  merge_left (l1 ++ l2)%list right
  = (merge_left l1 right ++ merge_left l2 right)%list.
Proof. unfold merge_left. apply flat_map_app. Qed.

Lemma filter_data_complete (T : Tables) (sector : string) (f t : Z) :
  Forall (to_datetime_succeeds parse_date) (map Stock.Date (stocks_df T)) ->
  Forall (to_datetime_succeeds parse_date) (map Index.Date (index_df T)) ->
  filter_data_by_sector_and_year parse_date T sector f t
  = (Ok (groupby_Date_Close_mean
           (sector_selection (map (convert_stock parse_date) (stocks_df T))
                             (companies_df T) sector f t),
         index_selection (map (convert_index parse_date) (index_df T)) f t),
     converted_tables parse_date T).
Proof.
  intros Fs Fi. unfold filter_data_by_sector_and_year.
  rewrite (to_datetime_complete _ _ Fs). cbn [stocks_df companies_df index_df].
  rewrite (to_datetime_complete _ _ Fi).
  rewrite !assign_Date_map.
  fold (convert_stock parse_date). fold (convert_index parse_date).
  change (fun r => Stock.set_Date r (converted parse_date (Stock.Date r)))
    with (convert_stock parse_date).
  change (fun r => Index.set_Date r (converted parse_date (Index.Date r)))
    with (convert_index parse_date).
  rewrite dt_accessor_ok.
  2:{ apply merge_left_dates. rewrite stock_dates_converted.
      now apply converted_ok. }
  rewrite dt_accessor_ok.
  2:{ rewrite index_dates_converted. now apply converted_ok. }
  reflexivity.
Qed.

Lemma filter_data_Ok (T T' : Tables) (sector : string) (f t : Z)
  (sp ip : Series) :
  filter_data_by_sector_and_year parse_date T sector f t = (Ok (sp, ip), T') ->
  Forall (to_datetime_succeeds parse_date) (map Stock.Date (stocks_df T)) /\
  Forall (to_datetime_succeeds parse_date) (map Index.Date (index_df T)) /\
  T' = converted_tables parse_date T /\
  sp = groupby_Date_Close_mean
         (sector_selection (stocks_df T') (companies_df T') sector f t) /\
  ip = index_selection (index_df T') f t.
Proof.
  intros H.
  assert (Fs : Forall (to_datetime_succeeds parse_date) (map Stock.Date (stocks_df T))).
  { unfold filter_data_by_sector_and_year in H.
    destruct (to_datetime parse_date (map Stock.Date (stocks_df T))) eqn:E.
    - now apply to_datetime_Ok in E.
    - inversion H. }
  assert (Fi : Forall (to_datetime_succeeds parse_date) (map Index.Date (index_df T))).
  { unfold filter_data_by_sector_and_year in H.
    rewrite (to_datetime_complete _ _ Fs) in H. cbn [index_df] in H.
    destruct (to_datetime parse_date (map Index.Date (index_df T))) eqn:E.
    - now apply to_datetime_Ok in E.
    - inversion H. }
  rewrite (filter_data_complete T sector f t Fs Fi) in H.
  inversion H; subst. auto.
Qed.

End SectorPipeline.

(** ** The order of dates and the group keys *)

Lemma Timestamp_compare_eq (a b : Timestamp.t) :
  Timestamp.compare a b = Eq <-> a = b.
Proof.
  unfold Timestamp.compare. destruct a as [y1 m1 d1], b as [y2 m2 d2]; simpl.
  split.
  - destruct (y1 ?= y2) eqn:Ey; try discriminate.
    destruct (m1 ?= m2) eqn:Em; try discriminate.
    intros Ed. apply Z.compare_eq in Ey, Em, Ed. congruence.
  - intros H; inversion H; subst. now rewrite !Z.compare_refl.
Qed.

Lemma Timestamp_eqb_eq (a b : Timestamp.t) :
  Timestamp.eqb a b = true <-> a = b.
Proof.
  unfold Timestamp.eqb. rewrite <- Timestamp_compare_eq.
  destruct (Timestamp.compare a b); split; congruence.
Qed.

Lemma Timestamp_eqb_refl (a : Timestamp.t) : Timestamp.eqb a a = true.
Proof. now apply Timestamp_eqb_eq. Qed.

Lemma Timestamp_lt_spec (a b : Timestamp.t) :
  Timestamp.lt a b <->
  Timestamp.year a < Timestamp.year b
  \/ (Timestamp.year a = Timestamp.year b
      /\ (Timestamp.month a < Timestamp.month b
          \/ (Timestamp.month a = Timestamp.month b
              /\ Timestamp.day a < Timestamp.day b))).
Proof.
  unfold Timestamp.lt, Timestamp.compare.
  destruct (Z.compare_spec (Timestamp.year a) (Timestamp.year b));
    destruct (Z.compare_spec (Timestamp.month a) (Timestamp.month b));
    destruct (Z.compare_spec (Timestamp.day a) (Timestamp.day b));
    split; intros; try discriminate; try reflexivity; lia.
Qed.

Lemma Timestamp_gt_lt (a b : Timestamp.t) :
  Timestamp.compare a b = Gt -> Timestamp.lt b a.
Proof.
  intros H. apply Timestamp_lt_spec. revert H. unfold Timestamp.compare.
  destruct (Z.compare_spec (Timestamp.year a) (Timestamp.year b));
    destruct (Z.compare_spec (Timestamp.month a) (Timestamp.month b));
    destruct (Z.compare_spec (Timestamp.day a) (Timestamp.day b));
    intros; try discriminate; lia.
Qed.

Lemma Timestamp_lt_trans (a b c : Timestamp.t) :
  Timestamp.lt a b -> Timestamp.lt b c -> Timestamp.lt a c.
Proof. rewrite !Timestamp_lt_spec. lia. Qed.

Lemma Timestamp_lt_irrefl (a : Timestamp.t) : ~ Timestamp.lt a a.
Proof. rewrite Timestamp_lt_spec. lia. Qed.

Lemma insert_key_In (x k : Timestamp.t) (l : list Timestamp.t) :
  In x (insert_key k l) <-> x = k \/ In x l.
Proof.
  induction l as [| y l IH]; simpl.
  - intuition congruence.
  - destruct (Timestamp.compare k y) eqn:E; simpl.
    + apply Timestamp_compare_eq in E. subst. intuition congruence.
    + intuition congruence.
    + rewrite IH. intuition congruence.
Qed.

Lemma insert_key_sorted (k : Timestamp.t) (l : list Timestamp.t) :
  StronglySorted Timestamp.lt l -> StronglySorted Timestamp.lt (insert_key k l).
Proof.
  induction 1 as [| y l S IH F]; simpl.
  - repeat constructor.
  - destruct (Timestamp.compare k y) eqn:E.
    + now constructor.
    + constructor; [now constructor |].
      constructor; [exact E |].
      eapply Forall_impl; [| exact F]. intros z. now apply Timestamp_lt_trans.
    + constructor; [exact IH |].
      apply Forall_forall. intros z Hz. apply insert_key_In in Hz.
      destruct Hz as [-> | Hz].
      * now apply Timestamp_gt_lt.
      * rewrite Forall_forall in F. now apply F.
Qed.

Lemma group_keys_sorted (col : list DateCell) :
  StronglySorted Timestamp.lt (group_keys col).
Proof.
  induction col as [| c col IH]; simpl; [constructor |].
  destruct c; auto. now apply insert_key_sorted.
Qed.

Lemma group_keys_In (k : Timestamp.t) (col : list DateCell) :
  In k (group_keys col) <-> In (DateTs k) col.
Proof.
  induction col as [| c col IH]; simpl; [tauto |].
  destruct c as [s | d |]; try rewrite insert_key_In; rewrite IH;
    intuition congruence.
Qed.

Lemma sorted_NoDup (l : list Timestamp.t) :
  StronglySorted Timestamp.lt l -> NoDup l.
Proof.
  induction 1 as [| y l S IH F]; constructor; auto.
  intros Hy. rewrite Forall_forall in F.
  exact (Timestamp_lt_irrefl y (F y Hy)).
Qed.

Lemma groupby_keys (df : list SectorMerged.row) :
  map fst (groupby_Date_Close_mean df)
  = map DateTs (group_keys (map SectorMerged.Date df)).
Proof. unfold groupby_Date_Close_mean. rewrite map_map. reflexivity. Qed.

Lemma year_mask_spec (f t : Z) (c : DateCell) :
  year_mask f t c = true <->
  exists d, c = DateTs d /\ f <= Timestamp.year d <= t.
Proof.
  unfold year_mask. destruct c as [s | d |]; simpl.
  - split; [discriminate | intros (d & E & _); discriminate].
  - rewrite andb_true_iff, !Z.leb_le. split.
    + intros H. exists d. split; [reflexivity | lia].
    + intros (d' & E & H). inversion E; subst. lia.
  - split; [discriminate | intros (d & E & _); discriminate].
Qed.

(** ** The year window *)

Lemma sector_selection_dates
  (stocks : list Stock.row) (companies : list Company.row)
  (sector : string) (f t : Z) (c : DateCell) :
  In c (map SectorMerged.Date (sector_selection stocks companies sector f t)) ->
  exists d, c = DateTs d /\ f <= Timestamp.year d <= t.
Proof.
  intros H. apply in_map_iff in H. destruct H as (m & <- & Hm).
  unfold sector_selection in Hm. apply filter_In in Hm.
  destruct Hm as [_ Hm]. apply andb_true_iff in Hm.
  now apply year_mask_spec.
Qed.

Lemma groupby_dates_in_window
  (stocks : list Stock.row) (companies : list Company.row)
  (sector : string) (f t : Z) (c : DateCell) (v : option Q) :
  In (c, v) (groupby_Date_Close_mean
               (sector_selection stocks companies sector f t)) ->
  exists d, c = DateTs d /\ f <= Timestamp.year d <= t.
Proof.
  intros H. apply (in_map fst) in H. rewrite groupby_keys in H. simpl in H.
  apply in_map_iff in H. destruct H as (k & <- & Hk).
  apply group_keys_In in Hk.
  destruct (sector_selection_dates _ _ _ _ _ _ Hk) as (d & E & R).
  exists d. auto.
Qed.

Lemma index_selection_dates (index : list Index.row) (f t : Z)
  (c : DateCell) (v : option Q) :
  In (c, v) (index_selection index f t) ->
  exists d, c = DateTs d /\ f <= Timestamp.year d <= t.
Proof.
  unfold index_selection. intros H. apply in_map_iff in H.
  destruct H as (r & E & Hr). inversion E; subst.
  apply filter_In in Hr. now apply year_mask_spec.
Qed.

(** C2. For a sector and years [from_year <= to_year] within 2014..2024,
    when [filter_data_by_sector_and_year] returns its two series, every
    index label of the sector series and of the S&P500 series is a date whose
    year lies in [from_year .. to_year]. *)
Theorem filter_dates_within_years :
  forall (parse_date : string -> option (option Timestamp.t))
         (self self' : Tables) (selected_sector : string)
         (from_year to_year : Z) (sector_performance index_performance : Series),
    2014 <= from_year -> from_year <= to_year -> to_year <= 2024 ->
    filter_data_by_sector_and_year parse_date self selected_sector from_year to_year
    = (Ok (sector_performance, index_performance), self') ->
    (forall c v, In (c, v) sector_performance ->
                 exists d, c = DateTs d /\ from_year <= Timestamp.year d <= to_year)
    /\ (forall c v, In (c, v) index_performance ->
                    exists d, c = DateTs d /\ from_year <= Timestamp.year d <= to_year).
Proof.
  intros parse_date self self' sector f t sp ip _ _ _ H.
  apply filter_data_Ok in H. destruct H as (_ & _ & _ & -> & ->).
  split; intros c v Hin.
  - eapply groupby_dates_in_window; eauto.
  - eapply index_selection_dates; eauto.
Qed.

Lemma sample_dates_convert :
  Forall (to_datetime_succeeds iso_date) (map Stock.Date (stocks_df sample))
  /\ Forall (to_datetime_succeeds iso_date) (map Index.Date (index_df sample)).
Proof.
  split; simpl; repeat constructor; eexists; reflexivity.
Qed.

Lemma filter_dates_within_years_witness :
  filter_data_by_sector_and_year iso_date sample "Technology" 2020 2021
  = (Ok (sample_sector_series, sample_index_series),
     converted_tables iso_date sample)
  /\ (forall c v, In (c, v) sample_sector_series ->
                  exists d, c = DateTs d /\ 2020 <= Timestamp.year d <= 2021)
  /\ (forall c v, In (c, v) sample_index_series ->
                  exists d, c = DateTs d /\ 2020 <= Timestamp.year d <= 2021).
Proof.
  split; [vm_compute; reflexivity |].
  apply (filter_dates_within_years iso_date sample
           (converted_tables iso_date sample) "Technology" 2020 2021);
    [lia | lia | lia | vm_compute; reflexivity].
Defined.

(** ** Selections without a match *)

Lemma no_match_filter {A : Type} (p : A -> bool) (l : list A) :
  filter p l = [] <-> forall a, In a l -> p a = false.
Proof.
  induction l as [| a l IH]; simpl.
  - split; [intros _ a [] | reflexivity].
  - destruct (p a) eqn:E.
    + split; [discriminate |]. intros H. specialize (H a (or_introl eq_refl)).
      congruence.
    + rewrite IH. split.
      * intros H x [<- | Hx]; auto.
      * intros H x Hx. apply H. now right.
Qed.

Lemma first_match_filter {A : Type} (p : A -> bool) (l1 l2 : list A) (a : A) :
  (forall x, In x l1 -> p x = false) -> p a = true ->
  filter p (l1 ++ a :: l2) = a :: filter p l2.
Proof.
  intros H1 Ha. rewrite filter_app. simpl. rewrite Ha.
  replace (filter p l1) with (@nil A); [reflexivity |].
  symmetry. now apply no_match_filter.
Qed.

Lemma eqb_false_neq (a b : string) : String.eqb a b = false <-> a <> b.
Proof. apply String.eqb_neq. Qed.

(** ** The sector series: one mean per trading date *)

Section SectorSeries.

Variable parse_date : string -> option (option Timestamp.t).

Lemma filter_of_company (sym : string) (companies : list Company.row) :
  filter (fun c => String.eqb (SectorCols.Symbol c) sym)
         (map SectorCols.of_company companies)
  = map SectorCols.of_company
        (filter (fun c => String.eqb (Company.Symbol c) sym) companies).
Proof.
  induction companies as [| c cs IH]; simpl; [reflexivity |].
  destruct (String.eqb (Company.Symbol c) sym); simpl; now rewrite IH.
Qed.

Lemma sector_companies_filter (companies : list Company.row) (sector sym : string) :
  sector_companies companies sector sym
  = filter (fun c => str_eq_scalar (Company.Sector c) sector)
           (filter (fun c => String.eqb (Company.Symbol c) sym) companies).
Proof.
  unfold sector_companies.
  induction companies as [| c cs IH]; simpl; [reflexivity |].
  destruct (String.eqb (Company.Symbol c) sym); simpl; rewrite IH; reflexivity.
Qed.

Lemma selection_of_matches (s : Stock.row) (cs : list Company.row)
  (sector : string) (f t : Z) :
  map dated_close
      (filter (fun r => str_eq_scalar (SectorMerged.Sector r) sector
                        && year_mask f t (SectorMerged.Date r))
              (map (fun c => SectorMerged.mk s (SectorCols.Sector c)
                                (Some (SectorCols.Longname c)))
                   (map SectorCols.of_company cs)))
  = if year_mask f t (Stock.Date s)
    then map (fun _ => (Stock.Date s, Stock.Close s))
             (filter (fun c => str_eq_scalar (Company.Sector c) sector) cs)
    else [].
Proof.
  induction cs as [| c cs IH]; cbn [map filter].
  - now destruct (year_mask f t (Stock.Date s)).
  - unfold SectorMerged.Date at 1.
    cbn [SectorMerged.Sector SectorMerged.stock SectorCols.Sector
         SectorCols.of_company].
    destruct (year_mask f t (Stock.Date s)) eqn:M.
    + rewrite andb_true_r.
      destruct (str_eq_scalar (Company.Sector c) sector); cbn [map];
        rewrite IH; reflexivity.
    + rewrite andb_false_r. exact IH.
Qed.

(** The part of the selection that one stock row gives. *)
Lemma selection_of_row (s : Stock.row) (companies : list Company.row)
  (sector : string) (f t : Z) :
  map dated_close (sector_selection [s] companies sector f t)
  = if year_mask f t (Stock.Date s)
    then map (fun _ => (Stock.Date s, Stock.Close s))
             (sector_companies companies sector (Stock.Symbol s))
    else [].
Proof.
  unfold sector_selection, merge_left. cbn [flat_map]. rewrite app_nil_r.
  rewrite filter_of_company, sector_companies_filter.
  destruct (filter (fun c => String.eqb (Company.Symbol c) (Stock.Symbol s)) companies)
    as [| c cs].
  - cbn. now destruct (year_mask f t (Stock.Date s)).
  - apply (selection_of_matches s (c :: cs)).
Qed.

Lemma sector_selection_cons (s : Stock.row) (stocks : list Stock.row)
  (companies : list Company.row) (sector : string) (f t : Z) :
  sector_selection (s :: stocks) companies sector f t
  = (sector_selection [s] companies sector f t
     ++ sector_selection stocks companies sector f t)%list.
Proof.
  unfold sector_selection.
  change (s :: stocks) with ([s] ++ stocks)%list.
  now rewrite merge_left_app, filter_app.
Qed.

Lemma in_years_mask (f t : Z) (d : Timestamp.t) :
  year_mask f t (DateTs d) = in_years f t d.
Proof. reflexivity. Qed.

(** The selection the code makes holds the rows the specification names. *)
Lemma selection_is_sector_rows (T : Tables) (sector : string) (f t : Z) :
  Forall (to_datetime_succeeds parse_date) (map Stock.Date (stocks_df T)) ->
  map dated_close
      (sector_selection (map (convert_stock parse_date) (stocks_df T))
                        (companies_df T) sector f t)
  = map (fun p => (DateTs (fst p), snd p)) (sector_rows parse_date T sector f t).
Proof.
  unfold sector_rows. generalize (companies_df T) as companies.
  generalize (stocks_df T) as stocks. clear T.
  induction stocks as [| s stocks IH]; intros companies F; simpl.
  - reflexivity.
  - inversion F as [| ? ? [c' E] F']; subst.
    rewrite sector_selection_cons, !map_app, IH by assumption.
    f_equal. rewrite selection_of_row.
    unfold convert_stock. simpl.
    rewrite (to_datetime_cell_converted _ _ _ E).
    rewrite (calendar_date_converted _ _ _ E).
    pose proof (to_datetime_cell_not_text _ _ _ E) as N.
    destruct c' as [x | d |]; simpl in N; try discriminate.
    + rewrite in_years_mask. destruct (in_years f t d); [| reflexivity].
      rewrite !map_map. reflexivity.
    + reflexivity.
Qed.

Lemma dated_close_dates (df : list SectorMerged.row) :
  map SectorMerged.Date df = map fst (map dated_close df).
Proof. rewrite map_map. reflexivity. Qed.

Lemma closes_of_group (d : Timestamp.t) (df : list SectorMerged.row) :
  map SectorMerged.Close (filter (fun r => date_is d (SectorMerged.Date r)) df)
  = map snd (filter (fun p => date_is d (fst p)) (map dated_close df)).
Proof.
  induction df as [| m df IH]; simpl; [reflexivity |].
  destruct (date_is d (SectorMerged.Date m)); simpl; now rewrite IH.
Qed.

Lemma closes_on_dated (d : Timestamp.t) (rows : list (Timestamp.t * option Q)) :
  map snd (filter (fun p => date_is d (fst p))
                  (map (fun p => (DateTs (fst p), snd p)) rows))
  = closes_on d rows.
Proof.
  unfold closes_on. induction rows as [| p rows IH]; simpl; [reflexivity |].
  destruct (Timestamp.eqb (fst p) d); simpl; now rewrite IH.
Qed.

Lemma group_keys_dates (ds : list Timestamp.t) (k : Timestamp.t) :
  In k (group_keys (map DateTs ds)) <-> In k ds.
Proof.
  rewrite group_keys_In, in_map_iff. split.
  - intros (x & E & H). inversion E; subst. exact H.
  - intros H. exists k. auto.
Qed.

Lemma group_keys_length (ds : list Timestamp.t) :
  List.length (group_keys (map DateTs ds))
  = List.length (nodup eq_dec_Timestamp ds).
Proof.
  apply Permutation_length. apply NoDup_Permutation.
  - apply sorted_NoDup, group_keys_sorted.
  - apply NoDup_nodup.
  - intros k. rewrite group_keys_dates, nodup_In. tauto.
Qed.

Lemma find_group (g : Timestamp.t -> option Q) (d : Timestamp.t)
  (keys : list Timestamp.t) :
  In d keys ->
  find (fun kv => date_is d (fst kv)) (map (fun k => (DateTs k, g k)) keys)
  = Some (DateTs d, g d).
Proof.
  induction keys as [| k keys IH]; simpl; [tauto |].
  destruct (Timestamp.eqb k d) eqn:E.
  - apply Timestamp_eqb_eq in E. subst. reflexivity.
  - intros [-> | H]; [| auto]. now rewrite Timestamp_eqb_refl in E.
Qed.

(** With every Close present, [mean] is the sum over the count. *)
Lemma mean_all_present (v : Q) (vs : list Q) :
  mean (map Some (v :: vs))
  = Some (Qsum (v :: vs) / inject_Z (Z.of_nat (List.length (v :: vs))))%Q.
Proof.
  unfold mean.
  assert (E : forall l, dropna (map Some l) = l)
    by (induction l as [| x l IH]; simpl; [| rewrite IH]; reflexivity).
  rewrite E. reflexivity.
Qed.

(** With one company record per Symbol, a stock row enters the rows of a
    sector at most once. *)
Lemma sector_companies_at_most_one
  (companies : list Company.row) (sector sym : string) :
  NoDup (map Company.Symbol companies) ->
  (List.length (sector_companies companies sector sym) <= 1)%nat.
Proof.
  unfold sector_companies.
  induction companies as [| c cs IH]; simpl; intros N; [lia |].
  inversion N as [| ? ? Hn N']; subst.
  destruct (String.eqb (Company.Symbol c) sym) eqn:E; simpl; [| auto].
  apply String.eqb_eq in E.
  assert (Z0 : filter (fun c0 => String.eqb (Company.Symbol c0) sym
                                 && str_eq_scalar (Company.Sector c0) sector) cs = []).
  { apply no_match_filter. intros c' Hc'.
    destruct (String.eqb (Company.Symbol c') sym) eqn:E'; [| reflexivity].
    apply String.eqb_eq in E'. exfalso. apply Hn.
    apply in_map_iff. exists c'. split; [congruence | exact Hc']. }
  rewrite Z0. destruct (str_eq_scalar (Company.Sector c) sector); simpl; lia.
Qed.

End SectorSeries.

(** C3. When [filter_data_by_sector_and_year] returns, its sector series is
    indexed by dates in ascending order without repetition; it has as many
    entries as there are distinct dates among the sector's rows of the
    window; a date labels an entry exactly when it is one of those dates;
    and the entry at such a date is the mean of the Close values of the
    sector's rows of that date (missing values skipped, as [mean] does). *)
Theorem sector_series_mean_per_date :
  forall (parse_date : string -> option (option Timestamp.t))
         (self self' : Tables) (selected_sector : string)
         (from_year to_year : Z) (sector_performance index_performance : Series),
    filter_data_by_sector_and_year parse_date self selected_sector from_year to_year
    = (Ok (sector_performance, index_performance), self') ->
    (exists keys, map fst sector_performance = map DateTs keys
                  /\ StronglySorted Timestamp.lt keys)
    /\ List.length sector_performance
       = List.length (distinct_dates
                        (sector_rows parse_date self selected_sector from_year to_year))
    /\ (forall d,
           In (DateTs d) (map fst sector_performance)
           <-> In d (distinct_dates
                       (sector_rows parse_date self selected_sector from_year to_year)))
    /\ (forall d,
           In d (distinct_dates
                   (sector_rows parse_date self selected_sector from_year to_year)) ->
           series_get sector_performance d
           = Some (mean (closes_on d
                           (sector_rows parse_date self selected_sector
                                        from_year to_year)))).
Proof.
  intros parse_date T T' sector f t sp ip H.
  apply filter_data_Ok in H. destruct H as (Fs & _ & -> & -> & _).
  cbn [converted_tables stocks_df companies_df].
  set (rows := sector_rows parse_date T sector f t).
  set (df := sector_selection (map (convert_stock parse_date) (stocks_df T))
                              (companies_df T) sector f t).
  assert (Hsel : map dated_close df = map (fun p => (DateTs (fst p), snd p)) rows)
    by (apply selection_is_sector_rows; exact Fs).
  assert (Hdates : map SectorMerged.Date df = map DateTs (map fst rows)).
  { rewrite dated_close_dates, Hsel, !map_map. reflexivity. }
  assert (Hin : forall k, In k (group_keys (map SectorMerged.Date df))
                          <-> In k (distinct_dates rows)).
  { intros k. rewrite Hdates, group_keys_dates. unfold distinct_dates.
    now rewrite nodup_In. }
  split; [| split; [| split]].
  - exists (group_keys (map SectorMerged.Date df)). split.
    + apply groupby_keys.
    + apply group_keys_sorted.
  - unfold groupby_Date_Close_mean. rewrite length_map, Hdates.
    apply group_keys_length.
  - intros k. rewrite groupby_keys, <- Hin, in_map_iff. split.
    + intros (x & E & Hx). inversion E; subst. exact Hx.
    + intros Hk. exists k. auto.
  - intros k Hk. apply Hin in Hk.
    unfold series_get, groupby_Date_Close_mean.
    rewrite (find_group
               (fun d => mean (map SectorMerged.Close
                                   (filter (fun r => date_is d (SectorMerged.Date r)) df)))
               k _ Hk).
    cbn [option_map snd]. do 2 f_equal.
    rewrite closes_of_group, Hsel. apply closes_on_dated.
Qed.

Lemma sector_series_mean_per_date_witness :
  filter_data_by_sector_and_year iso_date sample "Technology" 2020 2021
  = (Ok (sample_sector_series, sample_index_series),
     converted_tables iso_date sample)
  /\ List.length sample_sector_series = 3%nat
  /\ series_get sample_sector_series (Timestamp.mk 2020 1 2)
     = Some (mean [px 75; px 161]).
Proof.
  pose proof (sector_series_mean_per_date iso_date sample
                (converted_tables iso_date sample) "Technology" 2020 2021
                sample_sector_series sample_index_series) as H.
  assert (E : filter_data_by_sector_and_year iso_date sample "Technology" 2020 2021
              = (Ok (sample_sector_series, sample_index_series),
                 converted_tables iso_date sample))
    by (vm_compute; reflexivity).
  destruct (H E) as (_ & L & _ & M).
  split; [exact E |]. split.
  - rewrite L. vm_compute. reflexivity.
  - rewrite (M (Timestamp.mk 2020 1 2)).
    + vm_compute. reflexivity.
    + vm_compute. auto.
Defined.

(** ** What the sector view does to the shared tables *)

Section SharedTables.

Variable parse_date : string -> option (option Timestamp.t).

Lemma filter_data_stock_raise (T : Tables) (sector : string) (f t : Z) (e : PyError) :
  to_datetime parse_date (map Stock.Date (stocks_df T)) = Raise e ->
  filter_data_by_sector_and_year parse_date T sector f t = (Raise e, T).
Proof. unfold filter_data_by_sector_and_year. intros ->. reflexivity. Qed.

Lemma filter_data_index_raise (T : Tables) (sector : string) (f t : Z) (e : PyError) :
  Forall (to_datetime_succeeds parse_date) (map Stock.Date (stocks_df T)) ->
  to_datetime parse_date (map Index.Date (index_df T)) = Raise e ->
  filter_data_by_sector_and_year parse_date T sector f t
  = (Raise e,
     mkTables (map (convert_stock parse_date) (stocks_df T))
              (companies_df T) (index_df T)).
Proof.
  intros Fs E. unfold filter_data_by_sector_and_year.
  rewrite (to_datetime_complete _ _ Fs). cbn [stocks_df companies_df index_df].
  rewrite E, assign_Date_map. reflexivity.
Qed.

(** The three ways a call can end. *)
Lemma filter_data_cases (T : Tables) (sector : string) (f t : Z) :
  (exists e,
      to_datetime parse_date (map Stock.Date (stocks_df T)) = Raise e
      /\ filter_data_by_sector_and_year parse_date T sector f t = (Raise e, T))
  \/ (exists e,
         Forall (to_datetime_succeeds parse_date) (map Stock.Date (stocks_df T))
         /\ to_datetime parse_date (map Index.Date (index_df T)) = Raise e
         /\ filter_data_by_sector_and_year parse_date T sector f t
            = (Raise e,
               mkTables (map (convert_stock parse_date) (stocks_df T))
                        (companies_df T) (index_df T)))
  \/ (Forall (to_datetime_succeeds parse_date) (map Stock.Date (stocks_df T))
      /\ Forall (to_datetime_succeeds parse_date) (map Index.Date (index_df T))
      /\ filter_data_by_sector_and_year parse_date T sector f t
         = (Ok (groupby_Date_Close_mean
                  (sector_selection (map (convert_stock parse_date) (stocks_df T))
                                    (companies_df T) sector f t),
                index_selection (map (convert_index parse_date) (index_df T)) f t),
            converted_tables parse_date T)).
Proof.
  destruct (to_datetime parse_date (map Stock.Date (stocks_df T))) as [ds | e] eqn:E1.
  - apply to_datetime_Ok in E1. destruct E1 as [_ Fs].
    destruct (to_datetime parse_date (map Index.Date (index_df T))) as [dt | e] eqn:E2.
    + apply to_datetime_Ok in E2. destruct E2 as [_ Fi].
      right. right. auto using filter_data_complete.
    + right. left. exists e. auto using filter_data_index_raise.
  - left. exists e. auto using filter_data_stock_raise.
Qed.

Lemma stock_converted_refl (l : list Stock.row) :
  Forall2 (stock_converted parse_date) l l.
Proof.
  induction l; constructor; auto. unfold stock_converted. tauto.
Qed.

Lemma index_converted_refl (l : list Index.row) :
  Forall2 (index_converted parse_date) l l.
Proof.
  induction l; constructor; auto. unfold index_converted. tauto.
Qed.

Lemma stock_converted_map (l : list Stock.row) :
  Forall (to_datetime_succeeds parse_date) (map Stock.Date l) ->
  Forall2 (stock_converted parse_date) l (map (convert_stock parse_date) l).
Proof.
  induction l as [| s l IH]; simpl; intros F; [constructor |].
  inversion F as [| ? ? [c' E] F']; subst. constructor; auto.
  unfold stock_converted, convert_stock. simpl.
  rewrite (to_datetime_cell_converted _ _ _ E). tauto.
Qed.

Lemma index_converted_map (l : list Index.row) :
  Forall (to_datetime_succeeds parse_date) (map Index.Date l) ->
  Forall2 (index_converted parse_date) l (map (convert_index parse_date) l).
Proof.
  induction l as [| s l IH]; simpl; intros F; [constructor |].
  inversion F as [| ? ? [c' E] F']; subst. constructor; auto.
  unfold index_converted, convert_index. simpl.
  rewrite (to_datetime_cell_converted _ _ _ E). tauto.
Qed.

Lemma converted_tables_idem (T : Tables) :
  Forall (to_datetime_succeeds parse_date) (map Stock.Date (stocks_df T)) ->
  Forall (to_datetime_succeeds parse_date) (map Index.Date (index_df T)) ->
  converted_tables parse_date (converted_tables parse_date T)
  = converted_tables parse_date T.
Proof.
  intros Fs Fi. unfold converted_tables. cbn [stocks_df companies_df index_df].
  now rewrite convert_stock_idem, convert_index_idem.
Qed.

End SharedTables.

(** C8. Whatever [filter_data_by_sector_and_year] is called with and however
    it ends, the tables it leaves have the companies table as it was, and the
    stocks and index tables row for row as they were: the same number of
    rows in the same order, every column but Date unchanged, and each Date
    cell either unchanged or replaced by its conversion. *)
Theorem filter_data_leaves_tables :
  forall (parse_date : string -> option (option Timestamp.t))
         (self : Tables) (selected_sector : string) (from_year to_year : Z),
    companies_df
      (snd (filter_data_by_sector_and_year parse_date self selected_sector
              from_year to_year))
    = companies_df self
    /\ Forall2 (stock_converted parse_date) (stocks_df self)
         (stocks_df
            (snd (filter_data_by_sector_and_year parse_date self selected_sector
                    from_year to_year)))
    /\ Forall2 (index_converted parse_date) (index_df self)
         (index_df
            (snd (filter_data_by_sector_and_year parse_date self selected_sector
                    from_year to_year))).
Proof.
  intros parse_date T sector f t.
  destruct (filter_data_cases parse_date T sector f t)
    as [(e & _ & ->) | [(e & Fs & _ & ->) | (Fs & Fi & ->)]];
    cbn [snd converted_tables stocks_df companies_df index_df].
  - auto using stock_converted_refl, index_converted_refl.
  - auto using stock_converted_map, index_converted_refl.
  - auto using stock_converted_map, index_converted_map.
Qed.

(** ** The revenue-growth pipeline *)

Section RevenuePipeline.

Variable parse_date : string -> option (option Timestamp.t).

Lemma merge_inner_In (left : list Stock.row) (right : list RevenueCols.row)
  (j : Stock.row * RevenueCols.row) :
  In j (merge_inner left right) <->
  In (fst j) left /\ In (snd j) right
  /\ RevenueCols.Symbol (snd j) = Stock.Symbol (fst j).
Proof.
  unfold merge_inner. rewrite in_flat_map. split.
  - intros (s & Hs & Hj). apply in_map_iff in Hj.
    destruct Hj as (c & <- & Hc). apply filter_In in Hc.
    destruct Hc as [Hc E]. apply String.eqb_eq in E. auto.
  - intros (Hs & Hc & E). exists (fst j). split; [exact Hs |].
    apply in_map_iff. exists (snd j). split; [now destruct j |].
    apply filter_In. split; [exact Hc | now apply String.eqb_eq].
Qed.

Lemma merge_inner_app (l1 l2 : list Stock.row) (right : list RevenueCols.row) :
  merge_inner (l1 ++ l2)%list right
  = (merge_inner l1 right ++ merge_inner l2 right)%list.
Proof. unfold merge_inner. apply flat_map_app. Qed.

Lemma merge_inner_dates_ok (left : list Stock.row) (right : list RevenueCols.row) :
  Forall (to_datetime_succeeds parse_date) (map Stock.Date left) ->
  Forall (to_datetime_succeeds parse_date)
         (map joined_Date (merge_inner left right)).
Proof.
  rewrite !Forall_forall. intros H c Hc.
  apply in_map_iff in Hc. destruct Hc as (j & <- & Hj).
  apply merge_inner_In in Hj. apply H. apply (in_map Stock.Date). tauto.
Qed.

Lemma merge_inner_converted (left : list Stock.row) (right : list RevenueCols.row) :
  merge_inner (map (convert_stock parse_date) left) right
  = map (convert_joined parse_date) (merge_inner left right).
Proof.
  unfold merge_inner. induction left as [| s left IH]; simpl; [reflexivity |].
  rewrite IH, map_app, map_map. reflexivity.
Qed.

Lemma joined_dates_converted (l : list (Stock.row * RevenueCols.row)) :
  map joined_Date (map (convert_joined parse_date) l)
  = map (converted parse_date) (map joined_Date l).
Proof. rewrite !map_map. reflexivity. Qed.

Lemma convert_joined_idem (l : list (Stock.row * RevenueCols.row)) :
  Forall (to_datetime_succeeds parse_date) (map joined_Date l) ->
  map (convert_joined parse_date) (map (convert_joined parse_date) l)
  = map (convert_joined parse_date) l.
Proof.
  induction l as [| j l IH]; simpl; intros F; [reflexivity |].
  inversion F; subst. rewrite IH by assumption. f_equal.
  unfold convert_joined, convert_stock, Stock.set_Date. simpl.
  unfold joined_Date in *. now rewrite converted_idem.
Qed.

Lemma merge_dataframes_complete (T : Tables) (y : Z) :
  Forall (to_datetime_succeeds parse_date)
         (map joined_Date
              (merge_inner (stocks_df T)
                           (map RevenueCols.of_company (companies_df T)))) ->
  merge_dataframes parse_date T y
  = Ok (revenue_rows parse_date (stocks_df T) (companies_df T) y).
Proof.
  intros F. unfold merge_dataframes.
  change (fun j : Stock.row * RevenueCols.row => Stock.Date (fst j)) with joined_Date.
  rewrite (to_datetime_complete _ _ F). cbn [bind].
  rewrite assign_Date_map.
  change (fun r => set_joined_Date r (converted parse_date (joined_Date r)))
    with (convert_joined parse_date).
  rewrite dt_accessor_ok.
  - reflexivity.
  - rewrite joined_dates_converted. now apply converted_ok.
Qed.

Lemma merge_dataframes_Ok (T : Tables) (y : Z) (res : list RevenueMerged.row) :
  merge_dataframes parse_date T y = Ok res ->
  Forall (to_datetime_succeeds parse_date)
         (map joined_Date
              (merge_inner (stocks_df T)
                           (map RevenueCols.of_company (companies_df T))))
  /\ res = revenue_rows parse_date (stocks_df T) (companies_df T) y.
Proof.
  intros H.
  assert (F : Forall (to_datetime_succeeds parse_date)
                (map joined_Date
                   (merge_inner (stocks_df T)
                      (map RevenueCols.of_company (companies_df T))))).
  { unfold merge_dataframes in H.
    change (fun j : Stock.row * RevenueCols.row => Stock.Date (fst j))
      with joined_Date in H.
    destruct (to_datetime parse_date
                (map joined_Date
                   (merge_inner (stocks_df T)
                      (map RevenueCols.of_company (companies_df T))))) eqn:E.
    - now apply to_datetime_Ok in E.
    - discriminate. }
  rewrite (merge_dataframes_complete T y F) in H. inversion H. auto.
Qed.

(** The revenue-growth view reads the same from tables whose stock dates
    the sector view has converted. *)
Lemma merge_dataframes_converted (T : Tables) (index : list Index.row) (y : Z) :
  Forall (to_datetime_succeeds parse_date) (map Stock.Date (stocks_df T)) ->
  merge_dataframes parse_date
    (mkTables (map (convert_stock parse_date) (stocks_df T)) (companies_df T) index) y
  = merge_dataframes parse_date T y.
Proof.
  intros Fs.
  pose proof (merge_inner_dates_ok (stocks_df T)
                (map RevenueCols.of_company (companies_df T)) Fs) as F.
  rewrite (merge_dataframes_complete T y F).
  rewrite merge_dataframes_complete; cbn [stocks_df companies_df].
  - unfold revenue_rows.
    now rewrite merge_inner_converted, convert_joined_idem.
  - rewrite merge_inner_converted, joined_dates_converted.
    now apply cell_ok_converted.
Qed.

End RevenuePipeline.

Section RevenueRows.

Variable parse_date : string -> option (option Timestamp.t).

Lemma calendar_date_Some (c : DateCell) (d : Timestamp.t) :
  calendar_date parse_date c = Some d
  <-> to_datetime_cell parse_date c = Ok (DateTs d).
Proof.
  unfold calendar_date.
  destruct (to_datetime_cell parse_date c) as [[s | d' |] | e];
    split; intros H; inversion H; reflexivity.
Qed.

Lemma eq_scalar_year (c : DateCell) (y : Z) :
  eq_scalar (dt_year c) y = true <->
  exists d, c = DateTs d /\ Timestamp.year d = y.
Proof.
  destruct c as [s | d |]; simpl.
  - split; [discriminate | intros (d & E & _); discriminate].
  - rewrite Z.eqb_eq. split.
    + intros H. exists d. auto.
    + intros (d' & E & H). inversion E; subst. reflexivity.
  - split; [discriminate | intros (d & E & _); discriminate].
Qed.

(** What one joined row becomes, and when the view keeps it. *)
Lemma kept_row (j : Stock.row * RevenueCols.row) (y : Z) :
  to_datetime_succeeds parse_date (joined_Date j) ->
  eq_scalar (RevenueMerged.Year (with_Year (convert_joined parse_date j))) y = true ->
  exists d,
    calendar_date parse_date (Stock.Date (fst j)) = Some d
    /\ Timestamp.year d = y
    /\ with_Year (convert_joined parse_date j)
       = RevenueMerged.mk (Stock.set_Date (fst j) (DateTs d))
           (RevenueCols.Sector (snd j)) (RevenueCols.Shortname (snd j))
           (RevenueCols.Revenuegrowth (snd j)) (Some y).
Proof.
  intros [c' E] P. unfold joined_Date in E.
  unfold with_Year, convert_joined, convert_stock in *. simpl in *.
  rewrite (to_datetime_cell_converted _ _ _ E) in *.
  apply eq_scalar_year in P. destruct P as (d & -> & Y).
  exists d. split; [now apply calendar_date_Some |]. split; [exact Y |].
  simpl. now rewrite Y.
Qed.

Lemma revenue_rows_In (T : Tables) (y : Z) (m : RevenueMerged.row) :
  Forall (to_datetime_succeeds parse_date)
         (map joined_Date
              (merge_inner (stocks_df T)
                           (map RevenueCols.of_company (companies_df T)))) ->
  In m (revenue_rows parse_date (stocks_df T) (companies_df T) y)
  <-> joined_in_year parse_date T y m.
Proof.
  intros F. unfold revenue_rows, joined_in_year.
  rewrite filter_In, map_map, in_map_iff. split.
  - intros ((j & <- & Hj) & P).
    assert (Hok : to_datetime_succeeds parse_date (joined_Date j)).
    { rewrite Forall_forall in F. apply F. now apply in_map. }
    destruct (kept_row j y Hok P) as (d & Hd & Y & E).
    apply merge_inner_In in Hj. destruct Hj as (Hs & Hc & Sym).
    apply in_map_iff in Hc. destruct Hc as (c & Ec & Hc).
    exists (fst j), c, d. rewrite E, <- Ec in *. simpl in *.
    repeat split; auto.
  - intros (s & c & d & Hs & Hc & Sym & Hd & Y & ->).
    apply calendar_date_Some in Hd.
    assert (E : with_Year (convert_joined parse_date (s, RevenueCols.of_company c))
                = RevenueMerged.mk (Stock.set_Date s (DateTs d)) (Company.Sector c)
                    (Company.Shortname c) (Company.Revenuegrowth c) (Some y)).
    { unfold with_Year, convert_joined, convert_stock. simpl.
      rewrite (to_datetime_cell_converted _ _ _ Hd). simpl. now rewrite Y. }
    split.
    + exists (s, RevenueCols.of_company c). split; [exact E |].
      apply merge_inner_In. simpl. split; [exact Hs |].
      split; [now apply in_map | exact Sym].
    + simpl. now apply Z.eqb_eq.
Qed.

Lemma one_company_per_symbol (companies : list Company.row) (sym : string) :
  NoDup (map Company.Symbol companies) ->
  (List.length
     (filter (fun c => String.eqb (RevenueCols.Symbol c) sym)
             (map RevenueCols.of_company companies)) <= 1)%nat.
Proof.
  induction companies as [| c cs IH]; simpl; intros N; [lia |].
  inversion N as [| ? ? Hn N']; subst.
  destruct (String.eqb (Company.Symbol c) sym) eqn:E; [| auto].
  apply String.eqb_eq in E. simpl.
  replace (filter _ (map RevenueCols.of_company cs)) with (@nil RevenueCols.row);
    [simpl; lia |].
  symmetry. clear IH N N'. induction cs as [| c' cs IH]; simpl; [reflexivity |].
  simpl in Hn.
  destruct (String.eqb (Company.Symbol c') sym) eqn:E'.
  - apply String.eqb_eq in E'. exfalso. apply Hn. left. congruence.
  - apply IH. tauto.
Qed.

Lemma NoDup_short {A : Type} (l : list A) : (List.length l <= 1)%nat -> NoDup l.
Proof.
  destruct l as [| a [| b l]]; simpl; intros H.
  - constructor.
  - constructor; [tauto | constructor].
  - lia.
Qed.

Lemma revenue_rows_cons (s : Stock.row) (stocks : list Stock.row)
  (companies : list Company.row) (y : Z) :
  revenue_rows parse_date (s :: stocks) companies y
  = (revenue_rows parse_date [s] companies y
     ++ revenue_rows parse_date stocks companies y)%list.
Proof.
  unfold revenue_rows. change (s :: stocks) with ([s] ++ stocks)%list.
  now rewrite merge_inner_app, !map_app, filter_app.
Qed.

Lemma revenue_rows_app (l1 l2 : list Stock.row)
  (companies : list Company.row) (y : Z) :
  revenue_rows parse_date (l1 ++ l2)%list companies y
  = (revenue_rows parse_date l1 companies y
     ++ revenue_rows parse_date l2 companies y)%list.
Proof.
  unfold revenue_rows. now rewrite merge_inner_app, !map_app, filter_app.
Qed.

Lemma revenue_rows_key (stocks : list Stock.row) (companies : list Company.row)
  (y : Z) (m : RevenueMerged.row) :
  Forall (to_datetime_succeeds parse_date)
         (map joined_Date
              (merge_inner stocks (map RevenueCols.of_company companies))) ->
  In m (revenue_rows parse_date stocks companies y) ->
  exists s d,
    In s stocks /\ stock_key parse_date s = (Stock.Symbol s, Some d)
    /\ merged_key m = (Stock.Symbol s, DateTs d).
Proof.
  intros F Hm.
  apply (revenue_rows_In (mkTables stocks companies []) y m F) in Hm.
  destruct Hm as (s & c & d & Hs & _ & _ & Hd & _ & ->).
  exists s, d. simpl in Hs. split; [exact Hs |].
  unfold stock_key, merged_key. rewrite Hd. auto.
Qed.

Lemma revenue_rows_NoDup (stocks : list Stock.row) (companies : list Company.row)
  (y : Z) :
  Forall (to_datetime_succeeds parse_date)
         (map joined_Date
              (merge_inner stocks (map RevenueCols.of_company companies))) ->
  NoDup (map Company.Symbol companies) ->
  NoDup (map (stock_key parse_date) stocks) ->
  NoDup (map merged_key (revenue_rows parse_date stocks companies y)).
Proof.
  intros F Nc. induction stocks as [| s stocks IH]; intros Ns.
  - constructor.
  - change (s :: stocks) with ([s] ++ stocks)%list in F.
    rewrite merge_inner_app, map_app in F. apply Forall_app in F.
    destruct F as [F1 F2].
    simpl in Ns. inversion Ns as [| ? ? Hn Ns']; subst.
    rewrite revenue_rows_cons, map_app. apply NoDup_app.
    + apply NoDup_short. rewrite length_map. unfold revenue_rows.
      etransitivity; [apply filter_length_le |]. rewrite !length_map.
      unfold merge_inner. simpl. rewrite app_nil_r, length_map.
      now apply one_company_per_symbol.
    + now apply IH.
    + intros k H1 H2.
      apply in_map_iff in H1. destruct H1 as (m1 & E1 & H1).
      apply in_map_iff in H2. destruct H2 as (m2 & E2 & H2).
      apply revenue_rows_key in H1; [| exact F1].
      apply revenue_rows_key in H2; [| exact F2].
      destruct H1 as (s1 & d1 & [<- | []] & K1 & M1).
      destruct H2 as (s2 & d2 & In2 & K2 & M2).
      apply Hn. apply in_map_iff. exists s2. split; [| exact In2].
      rewrite K1, K2. congruence.
Qed.

End RevenueRows.

(** C7. When [merge_dataframes] returns for a year, its rows are exactly
    the rows of the join of the stock and company tables on Symbol whose
    date falls in that year, each with the stock columns (Close among them),
    Sector, Shortname and Revenuegrowth of the pair it joins; and with one
    company record per Symbol and one stock row per Symbol and date, no two
    rows of the result share their Symbol and Date. *)
Theorem merge_dataframes_rows :
  forall (parse_date : string -> option (option Timestamp.t))
         (self : Tables) (selected_year : Z) (merged_df : list RevenueMerged.row),
    merge_dataframes parse_date self selected_year = Ok merged_df ->
    (forall m, In m merged_df <-> joined_in_year parse_date self selected_year m)
    /\ (NoDup (map Company.Symbol (companies_df self)) ->
        NoDup (map (stock_key parse_date) (stocks_df self)) ->
        NoDup (map merged_key merged_df)).
Proof.
  intros parse_date T y res H.
  apply merge_dataframes_Ok in H. destruct H as [F ->]. split.
  - intros m. now apply revenue_rows_In.
  - intros Nc Ns. now apply revenue_rows_NoDup.
Qed.

Ltac nodup_by_computation :=
  repeat (constructor; [simpl; intuition discriminate |]); constructor.

Lemma merge_dataframes_rows_witness :
  merge_dataframes iso_date sample 2021 = Ok sample_revenue_2021
  /\ (forall m, In m sample_revenue_2021 <-> joined_in_year iso_date sample 2021 m)
  /\ NoDup (map merged_key sample_revenue_2021).
Proof.
  assert (E : merge_dataframes iso_date sample 2021 = Ok sample_revenue_2021)
    by (vm_compute; reflexivity).
  destruct (merge_dataframes_rows iso_date sample 2021 sample_revenue_2021 E)
    as [HI HN].
  split; [exact E |]. split; [exact HI |].
  apply HN.
  - simpl. nodup_by_computation.
  - vm_compute. nodup_by_computation.
Defined.

(** ** No state is carried from one Analyze to the next *)

Lemma analyze_independent
  (parse_date : string -> option (option Timestamp.t)) (a b : Analyze) (T : Tables) :
  fst (analyze parse_date b (snd (analyze parse_date a T)))
  = fst (analyze parse_date b T).
Proof.
  destruct a as [sector f t | y]; cbn [analyze]; [| reflexivity].
  destruct (filter_data_cases parse_date T sector f t)
    as [(e & E & H) | [(e & Fs & E & H) | (Fs & Fi & H)]]; rewrite H; cbn [fst snd].
  - reflexivity.
  - destruct b as [sector' f' t' | y']; cbn [analyze].
    + rewrite (filter_data_index_raise parse_date _ sector' f' t' e).
      * now rewrite (filter_data_index_raise parse_date T sector' f' t' e).
      * cbn [stocks_df]. rewrite stock_dates_converted. now apply cell_ok_converted.
      * exact E.
    + cbn [fst]. f_equal. now apply merge_dataframes_converted.
  - destruct b as [sector' f' t' | y']; cbn [analyze].
    + rewrite (filter_data_complete parse_date (converted_tables parse_date T)
                 sector' f' t').
      * rewrite (filter_data_complete parse_date T sector' f' t') by assumption.
        cbn [converted_tables stocks_df companies_df index_df fst].
        now rewrite convert_stock_idem, convert_index_idem.
      * cbn [converted_tables stocks_df]. rewrite stock_dates_converted.
        now apply cell_ok_converted.
      * cbn [converted_tables index_df]. rewrite index_dates_converted.
        now apply cell_ok_converted.
    + cbn [fst]. f_equal. unfold converted_tables.
      now apply merge_dataframes_converted.
Qed.

(** C9. Pressing Analyze twice in succession with the same inputs gives the
    same result both times, for the sector view ([filter_data_by_sector_and_year],
    which converts the shared Date columns on its first run) and for the
    revenue-growth view ([merge_dataframes]); more generally the result of an
    Analyze is the same after any earlier Analyze as on the tables as
    loaded. *)
Theorem analyze_twice_same_result :
  forall (parse_date : string -> option (option Timestamp.t))
         (a : Analyze) (self : Tables),
    fst (analyze parse_date a (snd (analyze parse_date a self)))
    = fst (analyze parse_date a self)
    /\ (forall b : Analyze,
           fst (analyze parse_date b (snd (analyze parse_date a self)))
           = fst (analyze parse_date b self)).
Proof.
  intros parse_date a T. split.
  - apply analyze_independent.
  - intros b. apply analyze_independent.
Qed.

(** ** Monthly view: the extrema and their annotations *)

Lemma dropna_In (v : Q) (col : list (option Q)) :
  In v (dropna col) <-> In (Some v) col.
Proof.
  induction col as [| [x |] col IH]; simpl.
  - tauto.
  - rewrite IH. intuition congruence.
  - rewrite IH. intuition congruence.
Qed.

Lemma isnull_all_false (col : list (option Q)) :
  isnull_all col = false <-> has_value col.
Proof.
  unfold has_value. induction col as [| [x |] col IH]; simpl.
  - split; [discriminate | intros [v []]].
  - split; [intros _; exists x; auto | reflexivity].
  - rewrite IH. split; intros [v H]; exists v; intuition congruence.
Qed.

Lemma isnull_all_dropna (col : list (option Q)) :
  isnull_all col = true <-> dropna col = [].
Proof.
  induction col as [| [x |] col IH]; simpl.
  - tauto.
  - split; discriminate.
  - exact IH.
Qed.

Lemma Qmax_bool_cases (a b : Q) :
  (Qmax_bool a b = a \/ Qmax_bool a b = b)
  /\ (a <= Qmax_bool a b)%Q /\ (b <= Qmax_bool a b)%Q.
Proof.
  unfold Qmax_bool. destruct (Qle_bool a b) eqn:E.
  - apply Qle_bool_iff in E. repeat split; auto using Qle_refl.
  - assert (~ (a <= b)%Q) as N by (rewrite <- Qle_bool_iff; congruence).
    apply Qnot_le_lt, Qlt_le_weak in N. repeat split; auto using Qle_refl.
Qed.

Lemma Qmin_bool_cases (a b : Q) :
  (Qmin_bool a b = a \/ Qmin_bool a b = b)
  /\ (Qmin_bool a b <= a)%Q /\ (Qmin_bool a b <= b)%Q.
Proof.
  unfold Qmin_bool. destruct (Qle_bool b a) eqn:E.
  - apply Qle_bool_iff in E. repeat split; auto using Qle_refl.
  - assert (~ (b <= a)%Q) as N by (rewrite <- Qle_bool_iff; congruence).
    apply Qnot_le_lt, Qlt_le_weak in N. repeat split; auto using Qle_refl.
Qed.

Lemma fold_max_spec (vs : list Q) (v : Q) :
  In (fold_left Qmax_bool vs v) (v :: vs)
  /\ forall x, In x (v :: vs) -> (x <= fold_left Qmax_bool vs v)%Q.
Proof.
  revert v. induction vs as [| w vs IH]; intros v; simpl.
  - split; [auto |]. intros x [<- | []]. apply Qle_refl.
  - destruct (IH (Qmax_bool v w)) as [Hin Hle].
    destruct (Qmax_bool_cases v w) as ([E | E] & Lv & Lw).
    + split.
      * rewrite E in *. simpl in Hin. tauto.
      * intros x [<- | [<- | Hx]].
        -- eapply Qle_trans; [exact Lv |]. apply Hle. now left.
        -- eapply Qle_trans; [exact Lw |]. apply Hle. now left.
        -- apply Hle. now right.
    + split.
      * rewrite E in *. simpl in Hin. tauto.
      * intros x [<- | [<- | Hx]].
        -- eapply Qle_trans; [exact Lv |]. apply Hle. now left.
        -- eapply Qle_trans; [exact Lw |]. apply Hle. now left.
        -- apply Hle. now right.
Qed.

Lemma fold_min_spec (vs : list Q) (v : Q) :
  In (fold_left Qmin_bool vs v) (v :: vs)
  /\ forall x, In x (v :: vs) -> (fold_left Qmin_bool vs v <= x)%Q.
Proof.
  revert v. induction vs as [| w vs IH]; intros v; simpl.
  - split; [auto |]. intros x [<- | []]. apply Qle_refl.
  - destruct (IH (Qmin_bool v w)) as [Hin Hle].
    destruct (Qmin_bool_cases v w) as ([E | E] & Lv & Lw).
    + split.
      * rewrite E in *. simpl in Hin. tauto.
      * intros x [<- | [<- | Hx]].
        -- eapply Qle_trans; [| exact Lv]. apply Hle. now left.
        -- eapply Qle_trans; [| exact Lw]. apply Hle. now left.
        -- apply Hle. now right.
    + split.
      * rewrite E in *. simpl in Hin. tauto.
      * intros x [<- | [<- | Hx]].
        -- eapply Qle_trans; [| exact Lv]. apply Hle. now left.
        -- eapply Qle_trans; [| exact Lw]. apply Hle. now left.
        -- apply Hle. now right.
Qed.

(** [col_max] is the greatest present value, when there is one. *)
Lemma col_max_spec (col : list (option Q)) :
  has_value col ->
  exists m, col_max col = Some m /\ In (Some m) col
            /\ forall v, In (Some v) col -> (v <= m)%Q.
Proof.
  intros [x Hx]. unfold col_max. apply dropna_In in Hx.
  destruct (dropna col) as [| v vs] eqn:E; [contradiction |].
  destruct (fold_max_spec vs v) as [Hin Hle].
  exists (fold_left Qmax_bool vs v). split; [reflexivity |]. split.
  - apply dropna_In. now rewrite E.
  - intros w Hw. apply Hle. rewrite <- E. now apply dropna_In.
Qed.

Lemma col_min_spec (col : list (option Q)) :
  has_value col ->
  exists m, col_min col = Some m /\ In (Some m) col
            /\ forall v, In (Some v) col -> (m <= v)%Q.
Proof.
  intros [x Hx]. unfold col_min. apply dropna_In in Hx.
  destruct (dropna col) as [| v vs] eqn:E; [contradiction |].
  destruct (fold_min_spec vs v) as [Hin Hle].
  exists (fold_left Qmin_bool vs v). split; [reflexivity |]. split.
  - apply dropna_In. now rewrite E.
  - intros w Hw. apply Hle. rewrite <- E. now apply dropna_In.
Qed.

(** The annotations of the figure [plot_stock_prices] shows. *)
Lemma plot_annotations (filtered_stock : Indexed Stock.row)
  (company_shortname : string) (month year : Z) :
  annotations (plot_stock_prices filtered_stock company_shortname month year)
  = ((if isnull_all (Highs filtered_stock) then []
      else [mkAnnotation
              (loc_Date filtered_stock (idxmax (column Stock.High filtered_stock)))
              (col_max (Highs filtered_stock)) "Highest Price: " true 1])
     ++ (if isnull_all (Lows filtered_stock) then []
         else [mkAnnotation
                 (loc_Date filtered_stock (idxmin (column Stock.Low filtered_stock)))
                 (col_min (Lows filtered_stock)) "Lowest Price: " true 1]))%list.
Proof.
  unfold plot_stock_prices, add_price_annotations, Highs, Lows.
  destruct (isnull_all (map (fun ir => Stock.High (snd ir)) filtered_stock));
    destruct (isnull_all (map (fun ir => Stock.Low (snd ir)) filtered_stock));
    reflexivity.
Qed.

Lemma plot_high_annotations (filtered_stock : Indexed Stock.row)
  (company_shortname : string) (month year : Z) :
  high_annotations (plot_stock_prices filtered_stock company_shortname month year)
  = if isnull_all (Highs filtered_stock) then []
    else [mkAnnotation
            (loc_Date filtered_stock (idxmax (column Stock.High filtered_stock)))
            (col_max (Highs filtered_stock)) "Highest Price: " true 1].
Proof.
  unfold high_annotations. rewrite plot_annotations.
  destruct (isnull_all (Highs filtered_stock));
    destruct (isnull_all (Lows filtered_stock)); reflexivity.
Qed.

Lemma plot_low_annotations (filtered_stock : Indexed Stock.row)
  (company_shortname : string) (month year : Z) :
  low_annotations (plot_stock_prices filtered_stock company_shortname month year)
  = if isnull_all (Lows filtered_stock) then []
    else [mkAnnotation
            (loc_Date filtered_stock (idxmin (column Stock.Low filtered_stock)))
            (col_min (Lows filtered_stock)) "Lowest Price: " true 1].
Proof.
  unfold low_annotations. rewrite plot_annotations.
  destruct (isnull_all (Highs filtered_stock));
    destruct (isnull_all (Lows filtered_stock)); reflexivity.
Qed.

(** C6. In the figure of the monthly view there is a high annotation
    exactly when the High column of the window has a value that is not
    missing, and a low annotation exactly when the Low column has one; the
    value of a high annotation is a High of the window that no other High
    exceeds, the value of a low annotation a Low that no other Low is
    below. *)
Theorem annotations_when_values :
  forall (filtered_stock : Indexed Stock.row) (company_shortname : string)
         (month year : Z),
    (high_annotations (plot_stock_prices filtered_stock company_shortname month year)
       <> []
     <-> has_value (Highs filtered_stock))
    /\ (low_annotations (plot_stock_prices filtered_stock company_shortname month year)
          <> []
        <-> has_value (Lows filtered_stock))
    /\ (forall a,
           In a (high_annotations
                   (plot_stock_prices filtered_stock company_shortname month year)) ->
           exists m, ann_y a = Some m /\ In (Some m) (Highs filtered_stock)
                     /\ forall v, In (Some v) (Highs filtered_stock) -> (v <= m)%Q)
    /\ (forall a,
           In a (low_annotations
                   (plot_stock_prices filtered_stock company_shortname month year)) ->
           exists m, ann_y a = Some m /\ In (Some m) (Lows filtered_stock)
                     /\ forall v, In (Some v) (Lows filtered_stock) -> (m <= v)%Q).
Proof.
  intros df name month year.
  rewrite plot_high_annotations, plot_low_annotations.
  rewrite <- !isnull_all_false.
  split; [| split; [| split]].
  - destruct (isnull_all (Highs df)); split; congruence.
  - destruct (isnull_all (Lows df)); split; congruence.
  - intros a Ha. destruct (isnull_all (Highs df)) eqn:E; [contradiction |].
    destruct Ha as [<- | []]. apply isnull_all_false in E.
    destruct (col_max_spec _ E) as (m & Hm & Hin & Hle).
    exists m. auto.
  - intros a Ha. destruct (isnull_all (Lows df)) eqn:E; [contradiction |].
    destruct Ha as [<- | []]. apply isnull_all_false in E.
    destruct (col_min_spec _ E) as (m & Hm & Hin & Hle).
    exists m. auto.
Qed.

(** ** Monthly view: the lookup of the company *)

Lemma filter_stock_data_resolved
  (stock_df : list Stock.row) (companies_df : list Company.row)
  (company_shortname : string) (month year : Z)
  (before after : list Company.row) (c : Company.row) :
  companies_df = (before ++ c :: after)%list ->
  Company.Shortname c = company_shortname ->
  (forall c', In c' before -> Company.Shortname c' <> company_shortname) ->
  filter_stock_data stock_df companies_df company_shortname month year
  = (_ <- dt_accessor (map Stock.Date stock_df) ;;
     Ok (filter
           (fun ir =>
              String.eqb (Stock.Symbol (snd ir)) (Company.Symbol c)
              && eq_scalar (dt_month (Stock.Date (snd ir))) month
              && eq_scalar (dt_year (Stock.Date (snd ir))) year)
           (range_index stock_df))).
Proof.
  intros -> Hc Hb. unfold filter_stock_data.
  rewrite first_match_filter.
  - reflexivity.
  - intros x Hx. apply eqb_false_neq. now apply Hb.
  - now apply String.eqb_eq.
Qed.

(** C5. [filter_stock_data] raises [IndexError] exactly when no company
    record has the short name; when some record has it, the Symbol it
    filters the stock rows by is that of the first such record of the
    company table (and the call returns the rows of that Symbol, month and
    year, the Date column being a datetime column). *)
Theorem filter_stock_data_first_match :
  forall (stock_df : list Stock.row) (companies_df : list Company.row)
         (company_shortname : string) (month year : Z),
    (filter_stock_data stock_df companies_df company_shortname month year
       = Raise IndexError
     <-> forall c, In c companies_df -> Company.Shortname c <> company_shortname)
    /\ (forall before c after,
           companies_df = (before ++ c :: after)%list ->
           Company.Shortname c = company_shortname ->
           (forall c', In c' before -> Company.Shortname c' <> company_shortname) ->
           filter_stock_data stock_df companies_df company_shortname month year
           = (_ <- dt_accessor (map Stock.Date stock_df) ;;
              Ok (filter
                    (fun ir =>
                       String.eqb (Stock.Symbol (snd ir)) (Company.Symbol c)
                       && eq_scalar (dt_month (Stock.Date (snd ir))) month
                       && eq_scalar (dt_year (Stock.Date (snd ir))) year)
                    (range_index stock_df)))).
Proof.
  intros stock_df companies shortname month year. split.
  - unfold filter_stock_data.
    destruct (filter (fun c => String.eqb (Company.Shortname c) shortname) companies)
      as [| c cs] eqn:E.
    + split; [| reflexivity]. intros _ c Hc.
      apply eqb_false_neq. revert c Hc. now apply no_match_filter.
    + split.
      * unfold dt_accessor.
        destruct (existsb is_text (map Stock.Date stock_df)); discriminate.
      * intros H. exfalso.
        assert (Hc : In c (filter (fun c => String.eqb (Company.Shortname c) shortname)
                                  companies)) by (rewrite E; now left).
        apply filter_In in Hc. destruct Hc as [Hc Hs].
        apply String.eqb_eq in Hs. exact (H c Hc Hs).
  - intros before c after E Hc Hb.
    exact (filter_stock_data_resolved _ _ _ _ _ before after c E Hc Hb).
Qed.

Lemma range_index_from_In {A : Type} (l : list A) (a i : nat) (r : A) :
  In (i, r) (combine (seq a (List.length l)) l)
  <-> (a <= i)%nat /\ nth_error l (i - a) = Some r.
Proof.
  revert a. induction l as [| x l IH]; intros a; simpl.
  - split; [tauto |]. intros [_ H]. destruct (i - a)%nat; discriminate.
  - rewrite IH. split.
    + intros [E | [L N]].
      * inversion E; subst. rewrite Nat.sub_diag. auto.
      * split; [lia |]. replace (i - a)%nat with (S (i - S a)) by lia. exact N.
    + intros [L N]. destruct (Nat.eq_dec i a) as [-> | Ne].
      * rewrite Nat.sub_diag in N. inversion N. now left.
      * right. split; [lia |].
        replace (i - a)%nat with (S (i - S a)) in N by lia. exact N.
Qed.

Lemma range_index_In {A : Type} (l : list A) (i : nat) (r : A) :
  In (i, r) (range_index l) <-> nth_error l i = Some r.
Proof.
  unfold range_index. rewrite range_index_from_In, Nat.sub_0_r.
  split; [tauto | split; [lia | assumption]].
Qed.

(** The rows [filter_stock_data] returns, each under the label it has in
    the stock table. *)
Lemma filter_stock_data_rows
  (stock_df : list Stock.row) (companies_df : list Company.row)
  (company_shortname : string) (month year : Z)
  (before after : list Company.row) (c : Company.row) (df : Indexed Stock.row) :
  companies_df = (before ++ c :: after)%list ->
  Company.Shortname c = company_shortname ->
  (forall c', In c' before -> Company.Shortname c' <> company_shortname) ->
  filter_stock_data stock_df companies_df company_shortname month year = Ok df ->
  forall i r,
    In (i, r) df <->
    nth_error stock_df i = Some r /\ Stock.Symbol r = Company.Symbol c
    /\ exists d, Stock.Date r = DateTs d
                 /\ Timestamp.month d = month /\ Timestamp.year d = year.
Proof.
  intros Hc Hs Hb H i r.
  rewrite (filter_stock_data_resolved stock_df companies_df company_shortname
             month year before after c Hc Hs Hb) in H.
  destruct (dt_accessor (map Stock.Date stock_df)); simpl in H; [| discriminate].
  inversion H; subst df. clear H.
  rewrite filter_In, range_index_In, !andb_true_iff, String.eqb_eq. simpl.
  split.
  - intros (N & (Sy & M) & Y). split; [exact N |]. split; [exact Sy |].
    destruct (Stock.Date r) as [x | d |]; simpl in *; try discriminate.
    exists d. apply Z.eqb_eq in M, Y. auto.
  - intros (N & Sy & d & E & M & Y). rewrite E. simpl.
    rewrite M, Y, !Z.eqb_refl. auto.
Qed.

Lemma filter_stock_data_first_match_witness :
  filter_stock_data (map (convert_stock iso_date) sample_stocks) sample_companies
    "Microsoft" 1 2020
  = Ok [(1%nat,
         Stock.mk (DateTs (Timestamp.mk 2020 1 2)) "MSFT"
                  (px 158) (px 160) (px 157) (px 161))]
  /\ filter_stock_data (map (convert_stock iso_date) sample_stocks) sample_companies
       "Tesla" 1 2020
     = Raise IndexError.
Proof.
  destruct (filter_stock_data_first_match
              (map (convert_stock iso_date) sample_stocks) sample_companies
              "Microsoft" 1 2020) as [_ Hfirst].
  destruct (filter_stock_data_first_match
              (map (convert_stock iso_date) sample_stocks) sample_companies
              "Tesla" 1 2020) as [Hnone _].
  split.
  - rewrite (Hfirst [Company.mk "AAPL" "Apple Inc." "Apple Inc." (Some "Technology")
                                 (Some (2 # 100))]
                    (Company.mk "MSFT" "Microsoft" "Microsoft Corporation"
                                (Some "Technology") (Some (17 # 100)))
                    [Company.mk "XOM" "Exxon Mobil" "Exxon Mobil Corporation"
                                (Some "Energy") (Some (-4 # 100))]).
    + vm_compute. reflexivity.
    + reflexivity.
    + reflexivity.
    + simpl. intros c' [<- | []]. discriminate.
  - apply Hnone. simpl. intros c [<- | [<- | [<- | []]]]; discriminate.
Defined.

(** ** Stock rows of a Symbol no company has *)

Section Unmatched.

Variable parse_date : string -> option (option Timestamp.t).

Lemma sector_selection_app (l1 l2 : list Stock.row) (companies : list Company.row)
  (sector : string) (f t : Z) :
  sector_selection (l1 ++ l2)%list companies sector f t
  = (sector_selection l1 companies sector f t
     ++ sector_selection l2 companies sector f t)%list.
Proof. unfold sector_selection. now rewrite merge_left_app, filter_app. Qed.

Lemma merge_left_unmatched (s : Stock.row) (companies : list Company.row) :
  (forall c, In c companies -> Company.Symbol c <> Stock.Symbol s) ->
  merge_left [s] (map SectorCols.of_company companies)
  = [SectorMerged.mk s None None].
Proof.
  intros H. unfold merge_left. simpl.
  replace (filter _ (map SectorCols.of_company companies))
    with (@nil SectorCols.row); [reflexivity |].
  symmetry. apply no_match_filter. intros c Hc.
  apply in_map_iff in Hc. destruct Hc as (c0 & <- & Hc0).
  apply eqb_false_neq. simpl. now apply H.
Qed.

Lemma merge_inner_unmatched (s : Stock.row) (companies : list Company.row) :
  (forall c, In c companies -> Company.Symbol c <> Stock.Symbol s) ->
  merge_inner [s] (map RevenueCols.of_company companies) = [].
Proof.
  intros H. unfold merge_inner. simpl.
  replace (filter _ (map RevenueCols.of_company companies))
    with (@nil RevenueCols.row); [reflexivity |].
  symmetry. apply no_match_filter. intros c Hc.
  apply in_map_iff in Hc. destruct Hc as (c0 & <- & Hc0).
  apply eqb_false_neq. simpl. now apply H.
Qed.

Lemma sector_selection_unmatched (s : Stock.row) (companies : list Company.row)
  (sector : string) (f t : Z) :
  (forall c, In c companies -> Company.Symbol c <> Stock.Symbol s) ->
  sector_selection [convert_stock parse_date s] companies sector f t = [].
Proof.
  intros H. unfold sector_selection.
  rewrite merge_left_unmatched by exact H. reflexivity.
Qed.

Lemma sector_selection_without (before after : list Stock.row) (s : Stock.row)
  (companies : list Company.row) (sector : string) (f t : Z) :
  (forall c, In c companies -> Company.Symbol c <> Stock.Symbol s) ->
  sector_selection (map (convert_stock parse_date) (before ++ s :: after))
                   companies sector f t
  = sector_selection (map (convert_stock parse_date) (before ++ after))
                     companies sector f t.
Proof.
  intros H. rewrite !map_app. cbn [map].
  rewrite !sector_selection_app, (sector_selection_cons (convert_stock parse_date s)).
  now rewrite sector_selection_unmatched.
Qed.

Lemma merge_inner_without (before after : list Stock.row) (s : Stock.row)
  (companies : list Company.row) :
  (forall c, In c companies -> Company.Symbol c <> Stock.Symbol s) ->
  merge_inner (before ++ s :: after)%list (map RevenueCols.of_company companies)
  = merge_inner (before ++ after)%list (map RevenueCols.of_company companies).
Proof.
  intros H. change (s :: after) with ([s] ++ after)%list.
  now rewrite !merge_inner_app, merge_inner_unmatched.
Qed.

End Unmatched.

(** C10. A stock row whose Symbol no company record has contributes to
    neither view.  The left join of the sector view gives it a missing
    Sector, and whatever the sector view returns with the row in the stocks
    table it returns without it, for every sector and window; the inner join
    of the revenue-growth view has no row for it, and [merge_dataframes]
    returns the same with and without it. *)
Theorem unmatched_stock_row_ignored :
  forall (parse_date : string -> option (option Timestamp.t))
         (before after : list Stock.row) (s : Stock.row)
         (companies : list Company.row) (index : list Index.row),
    (forall c, In c companies -> Company.Symbol c <> Stock.Symbol s) ->
    merge_left [s] (map SectorCols.of_company companies)
    = [SectorMerged.mk s None None]
    /\ (forall sector from_year to_year series self',
           filter_data_by_sector_and_year parse_date
             (mkTables (before ++ s :: after) companies index)
             sector from_year to_year
           = (Ok series, self') ->
           fst (filter_data_by_sector_and_year parse_date
                  (mkTables (before ++ after) companies index)
                  sector from_year to_year)
           = Ok series)
    /\ merge_inner [s] (map RevenueCols.of_company companies) = []
    /\ (forall selected_year,
           merge_dataframes parse_date
             (mkTables (before ++ s :: after) companies index) selected_year
           = merge_dataframes parse_date
               (mkTables (before ++ after) companies index) selected_year).
Proof.
  intros parse_date before after s companies index H.
  split; [now apply merge_left_unmatched |].
  split; [| split; [now apply merge_inner_unmatched |]].
  - intros sector f t [sp ip] T' E.
    apply filter_data_Ok in E. destruct E as (Fs & Fi & -> & -> & ->).
    cbn [stocks_df index_df companies_df converted_tables] in *.
    rewrite filter_data_complete; cbn [stocks_df index_df companies_df fst].
    + now rewrite (sector_selection_without parse_date before after s).
    + rewrite map_app in *. apply Forall_app in Fs. destruct Fs as [F1 F2].
      apply Forall_app. split; [exact F1 |]. now inversion F2.
    + exact Fi.
  - intros y. unfold merge_dataframes. cbn [stocks_df companies_df].
    now rewrite (merge_inner_without before after s).
Qed.

Lemma unmatched_stock_row_ignored_witness :
  merge_left
    [Stock.mk (DateStr "2020-01-02") "ZZZZ" (px 1) (px 2) (px 1) (px 1000)]
    (map SectorCols.of_company sample_companies)
  = [SectorMerged.mk
       (Stock.mk (DateStr "2020-01-02") "ZZZZ" (px 1) (px 2) (px 1) (px 1000))
       None None]
  /\ fst (filter_data_by_sector_and_year iso_date
            (mkTables (firstn 2 sample_stocks ++ skipn 3 sample_stocks)
                      sample_companies sample_index)
            "Technology" 2020 2021)
     = Ok (sample_sector_series, sample_index_series)
  /\ merge_dataframes iso_date sample 2021
     = merge_dataframes iso_date
         (mkTables (firstn 2 sample_stocks ++ skipn 3 sample_stocks)
                   sample_companies sample_index) 2021.
Proof.
  destruct (unmatched_stock_row_ignored iso_date
              (firstn 2 sample_stocks) (skipn 3 sample_stocks)
              (Stock.mk (DateStr "2020-01-02") "ZZZZ" (px 1) (px 2) (px 1) (px 1000))
              sample_companies sample_index)
    as (Hleft & Hsector & _ & Hrevenue).
  - simpl. intros c [<- | [<- | [<- | []]]]; discriminate.
  - split; [exact Hleft |]. split.
    + apply (Hsector "Technology" 2020 2021 _ (converted_tables iso_date sample)).
      vm_compute. reflexivity.
    + exact (Hrevenue 2021).
Defined.

(** ** Empty selections: a notice or a chart *)

Lemma revenue_view_no_data
  (parse_date : string -> option (option Timestamp.t))
  (self : Tables) (selected_year : Z) :
  merge_dataframes parse_date self selected_year = Ok [] ->
  perform_analysis parse_date self selected_year
  = Ok (MessageBoxWarning "No Data"
          ("No data available for the year " ++ py_str selected_year ++ ".")).
Proof. unfold perform_analysis. intros ->. reflexivity. Qed.

Lemma revenue_view_chart_has_rows
  (parse_date : string -> option (option Timestamp.t))
  (self : Tables) (selected_year : Z) (e : Event) :
  perform_analysis parse_date self selected_year = Ok e ->
  is_chart e = true ->
  exists m rows, merge_dataframes parse_date self selected_year = Ok (m :: rows).
Proof.
  unfold perform_analysis.
  destruct (merge_dataframes parse_date self selected_year) as [[| m rows] | err];
    simpl; intros H C; inversion H; subst; try discriminate.
  exists m, rows. reflexivity.
Qed.

Lemma monthly_view_no_data
  (self : Tables) (company_shortname : string) (month year : Z) :
  filter_stock_data (stocks_df self) (companies_df self) company_shortname month year
  = Ok [] ->
  analyze_stock self company_shortname month year
  = Ok (MessageBoxWarning "No Data" "Data available only until 02-2024").
Proof. unfold analyze_stock. intros ->. reflexivity. Qed.

(** The sector view has one message box, and it is not a No Data notice. *)
Lemma sector_view_never_no_data
  (int : string -> option Z) (parse_date : string -> option (option Timestamp.t))
  (self : Tables) (selected_sector from_year to_year : string) (e : Event) :
  fst (perform_sector_analysis int parse_date self selected_sector from_year to_year)
  = Ok e ->
  is_no_data_notice e = false.
Proof.
  unfold perform_sector_analysis.
  destruct (negb (String.eqb (validate_years int from_year to_year) "")).
  - simpl. intros H. inversion H. reflexivity.
  - destruct (int from_year) as [f |]; [| discriminate].
    destruct (int to_year) as [t |]; [| discriminate].
    destruct (filter_data_by_sector_and_year parse_date self selected_sector f t)
      as [[p | err] T']; simpl; intros H; inversion H. reflexivity.
Qed.

(** C4, on the code: for Energy in 2016-2017 the sample has no stock row
    and no index row, the revenue-growth view of a year without rows shows
    the No Data notice, and the sector view shows a chart of two empty
    series and no notice. *)
Theorem sector_view_charts_empty_selection :
  fst (filter_data_by_sector_and_year iso_date sample "Energy" 2016 2017)
  = Ok ([], [])
  /\ fst (perform_sector_analysis py_int iso_date sample "Energy" "2016" "2017")
     = Ok (SectorChart [] [] "Sector Performance Analysis: Energy (2016-2017)")
  /\ perform_analysis iso_date sample 2016
     = Ok (MessageBoxWarning "No Data" "No data available for the year 2016.").
Proof. repeat split; vm_compute; reflexivity. Qed.

(** ** The monthly view on the sample *)

Example monthly_chart_annotations :
  match filter_stock_data (map (convert_stock iso_date) sample_stocks)
          sample_companies "Apple Inc." 3 2021 with
  | Ok df => annotations (plot_stock_prices df "Apple Inc." 3 2021)
  | Raise _ => []
  end
  = [mkAnnotation [DateTs (Timestamp.mk 2021 3 1)] (px 122) "Lowest Price: " true 1].
Proof. vm_compute. reflexivity. Qed.

Example monthly_text_dates :
  filter_stock_data sample_stocks sample_companies "Apple Inc." 3 2021
  = Raise AttributeError.
Proof. reflexivity. Qed.

Example monthly_no_data :
  analyze_stock (converted_tables iso_date sample) "Exxon Mobil" 5 2022
  = Ok (MessageBoxWarning "No Data" "Data available only until 02-2024").
Proof. vm_compute. reflexivity. Qed.

(** * Further properties of the code *)

(** ** The sector handler: validation before the pipeline *)

(** [perform_sector_analysis] stops at a failed validation with the Input
    Error box that carries the message and leaves the tables alone; after a
    passed validation both [int] conversions succeed, the years satisfy
    2014 <= from <= to <= 2024, and the handler ends as
    [filter_data_by_sector_and_year] on them ends, its series going into the
    chart. *)
Theorem perform_sector_analysis_gate :
  forall (int : string -> option Z)
         (parse_date : string -> option (option Timestamp.t))
         (self : Tables) (selected_sector from_year to_year : string),
    (validate_years int from_year to_year <> "" ->
     perform_sector_analysis int parse_date self selected_sector from_year to_year
     = (Ok (MessageBoxWarning "Input Error" (validate_years int from_year to_year)),
        self))
    /\ (validate_years int from_year to_year = "" ->
        exists f t,
          int from_year = Some f /\ int to_year = Some t
          /\ 2014 <= f /\ f <= t /\ t <= 2024
          /\ perform_sector_analysis int parse_date self selected_sector
               from_year to_year
             = (p <- fst (filter_data_by_sector_and_year parse_date self
                            selected_sector f t) ;;
                Ok (SectorChart (fst p) (snd p)
                      ("Sector Performance Analysis: " ++ selected_sector
                         ++ " (" ++ py_str f ++ "-" ++ py_str t ++ ")")),
                snd (filter_data_by_sector_and_year parse_date self
                       selected_sector f t))).
Proof.
  intros int parse_date T sector from to. unfold perform_sector_analysis. split.
  - intros N. apply String.eqb_neq in N. rewrite N. reflexivity.
  - intros E. pose proof E as V. apply validate_years_empty in V.
    destruct V as (_ & _ & f & t & Hf & Ht & Rf & Rt & Le).
    exists f, t. rewrite E, Hf, Ht. cbn [String.eqb negb].
    repeat split; try lia.
    destruct (filter_data_by_sector_and_year parse_date T sector f t) as [r T'].
    reflexivity.
Qed.

(** ** When the pipelines raise *)

Section Raises.

Variable parse_date : string -> option (option Timestamp.t).

Lemma to_datetime_cell_raise (c : DateCell) (e : PyError) :
  to_datetime_cell parse_date c = Raise e -> e = ValueError.
Proof.
  destruct c as [s | d |]; simpl; try discriminate.
  destruct (parse_date s) as [[d |] |]; intros H; inversion H; reflexivity.
Qed.

Lemma readable_or_not (c : DateCell) :
  to_datetime_succeeds parse_date c \/ unreadable parse_date c.
Proof.
  unfold to_datetime_succeeds, unreadable.
  destruct (to_datetime_cell parse_date c) as [c' | e] eqn:E.
  - left. now exists c'.
  - right. now rewrite (to_datetime_cell_raise c e E).
Qed.

Lemma unreadable_not_readable (c : DateCell) :
  unreadable parse_date c -> ~ to_datetime_succeeds parse_date c.
Proof. unfold unreadable. intros H [c' E]. congruence. Qed.

Lemma column_readable_or_not (col : list DateCell) :
  Forall (to_datetime_succeeds parse_date) col
  \/ Exists (unreadable parse_date) col.
Proof.
  induction col as [| c col [IH | IH]].
  - left. constructor.
  - destruct (readable_or_not c) as [H | H].
    + left. now constructor.
    + right. now left.
  - right. now right.
Qed.

Lemma column_unreadable_not_readable (col : list DateCell) :
  Exists (unreadable parse_date) col ->
  ~ Forall (to_datetime_succeeds parse_date) col.
Proof.
  intros E F. apply Exists_exists in E. destruct E as (c & Hc & U).
  rewrite Forall_forall in F. exact (unreadable_not_readable c U (F c Hc)).
Qed.

Lemma to_datetime_Raise (col : list DateCell) (e : PyError) :
  to_datetime parse_date col = Raise e ->
  e = ValueError /\ Exists (unreadable parse_date) col.
Proof.
  intros H. destruct (column_readable_or_not col) as [F | X].
  - rewrite (to_datetime_complete _ _ F) in H. discriminate.
  - split; [| exact X]. revert H. unfold to_datetime.
    clear X. induction col as [| c col IH]; simpl; [discriminate |].
    destruct (to_datetime_cell parse_date c) eqn:E; simpl.
    + destruct (mapM (to_datetime_cell parse_date) col); simpl; [discriminate |].
      intros H. inversion H; subst. now apply IH.
    + intros H. inversion H; subst. eapply to_datetime_cell_raise; eauto.
Qed.

Lemma to_datetime_unreadable (col : list DateCell) :
  Exists (unreadable parse_date) col ->
  to_datetime parse_date col = Raise ValueError.
Proof.
  intros X. destruct (to_datetime parse_date col) as [ds | e] eqn:E.
  - apply to_datetime_Ok in E. destruct E as [_ F].
    now apply column_unreadable_not_readable in X.
  - apply to_datetime_Raise in E. now destruct E as [-> _].
Qed.

Lemma merge_dataframes_Raise (T : Tables) (y : Z) (e : PyError) :
  merge_dataframes parse_date T y = Raise e <->
  to_datetime parse_date
    (map joined_Date
         (merge_inner (stocks_df T) (map RevenueCols.of_company (companies_df T))))
  = Raise e.
Proof.
  destruct (to_datetime parse_date
              (map joined_Date
                   (merge_inner (stocks_df T)
                                (map RevenueCols.of_company (companies_df T)))))
    as [ds | e'] eqn:E.
  - apply to_datetime_Ok in E. destruct E as [_ F].
    rewrite (merge_dataframes_complete parse_date T y F). split; discriminate.
  - unfold merge_dataframes.
    change (fun j : Stock.row * RevenueCols.row => Stock.Date (fst j)) with joined_Date.
    rewrite E. cbn [bind]. split; intros H; inversion H; reflexivity.
Qed.

End Raises.

(** The sector pipeline raises exactly when a Date text of the stocks or of
    the index table is unreadable, whatever the sector and the years; the
    exception is then [ValueError]; and it returns its two series exactly
    when every Date cell of both tables converts. *)
Theorem filter_data_raises_iff_unreadable_date :
  forall (parse_date : string -> option (option Timestamp.t))
         (self : Tables) (selected_sector : string) (from_year to_year : Z),
    (forall e,
        fst (filter_data_by_sector_and_year parse_date self selected_sector
               from_year to_year) = Raise e ->
        e = ValueError)
    /\ (fst (filter_data_by_sector_and_year parse_date self selected_sector
               from_year to_year) = Raise ValueError
        <-> Exists (unreadable parse_date) (map Stock.Date (stocks_df self))
            \/ Exists (unreadable parse_date) (map Index.Date (index_df self)))
    /\ ((exists series,
            fst (filter_data_by_sector_and_year parse_date self selected_sector
                   from_year to_year) = Ok series)
        <-> Forall (to_datetime_succeeds parse_date) (map Stock.Date (stocks_df self))
            /\ Forall (to_datetime_succeeds parse_date)
                      (map Index.Date (index_df self))).
Proof.
  intros parse_date T sector f t.
  destruct (filter_data_cases parse_date T sector f t)
    as [(e & E & H) | [(e & Fs & E & H) | (Fs & Fi & H)]]; rewrite H; cbn [fst].
  - apply to_datetime_Raise in E. destruct E as [-> X].
    split; [intros e H'; now inversion H' |]. split.
    + split; [auto | reflexivity].
    + split; [intros [p Hp]; discriminate |].
      intros [F _]. now apply column_unreadable_not_readable in X.
  - apply to_datetime_Raise in E. destruct E as [-> X].
    split; [intros e H'; now inversion H' |]. split.
    + split; [auto | reflexivity].
    + split; [intros [p Hp]; discriminate |].
      intros [_ F]. now apply column_unreadable_not_readable in X.
  - split; [discriminate |]. split.
    + split; [discriminate |].
      intros [X | X]; now apply column_unreadable_not_readable in X.
    + split; [auto | eauto].
Qed.

(** The revenue-growth pipeline raises exactly when a stock row that has a
    company record with its Symbol has an unreadable Date text, whatever the
    year; the exception is then [ValueError].  An unreadable date on a row
    of a Symbol no company has does not make it raise. *)
Theorem merge_dataframes_raises_iff_unreadable_joined_date :
  forall (parse_date : string -> option (option Timestamp.t))
         (self : Tables) (selected_year : Z),
    (forall e, merge_dataframes parse_date self selected_year = Raise e ->
               e = ValueError)
    /\ (merge_dataframes parse_date self selected_year = Raise ValueError
        <-> exists s c,
              In s (stocks_df self) /\ In c (companies_df self)
              /\ Company.Symbol c = Stock.Symbol s
              /\ unreadable parse_date (Stock.Date s)).
Proof.
  intros parse_date T y. split.
  - intros e H. apply merge_dataframes_Raise in H.
    apply to_datetime_Raise in H. tauto.
  - rewrite merge_dataframes_Raise. split.
    + intros H. apply to_datetime_Raise in H. destruct H as [_ X].
      apply Exists_exists in X. destruct X as (c & Hc & U).
      apply in_map_iff in Hc. destruct Hc as (j & <- & Hj).
      apply merge_inner_In in Hj. destruct Hj as (Hs & Hc & Sym).
      apply in_map_iff in Hc. destruct Hc as (c & Ec & Hc).
      exists (fst j), c. rewrite <- Ec in Sym. auto.
    + intros (s & c & Hs & Hc & Sym & U).
      apply to_datetime_unreadable. apply Exists_exists.
      exists (Stock.Date s). split; [| exact U].
      apply in_map_iff. exists (s, RevenueCols.of_company c). split; [reflexivity |].
      apply merge_inner_In. simpl. split; [exact Hs |].
      split; [now apply in_map | exact Sym].
Qed.

(** ** The revenue-growth handler *)

(** When [perform_analysis] returns, it has shown either the No Data box,
    and then no row of the join falls in the year, or the scatter chart,
    and then the chart holds exactly the rows of the join that fall in the
    year, of which there is at least one. *)
Theorem perform_analysis_notice_or_scatter :
  forall (parse_date : string -> option (option Timestamp.t))
         (self : Tables) (selected_year : Z) (e : Event),
    perform_analysis parse_date self selected_year = Ok e ->
    (e = MessageBoxWarning "No Data"
           ("No data available for the year " ++ py_str selected_year ++ ".")
     /\ forall m, ~ joined_in_year parse_date self selected_year m)
    \/ (exists merged_df,
           e = RevenueScatter merged_df
                 ("Revenue Growth vs. Stock Performance ("
                    ++ py_str selected_year ++ ")")
           /\ (exists m, joined_in_year parse_date self selected_year m)
           /\ forall m, In m merged_df
                        <-> joined_in_year parse_date self selected_year m).
Proof.
  intros parse_date T y e. unfold perform_analysis.
  destruct (merge_dataframes parse_date T y) as [rows | err] eqn:E; [| discriminate].
  apply merge_dataframes_Ok in E. destruct E as [F ->].
  pose proof (fun m => revenue_rows_In parse_date T y m F) as R.
  destruct (revenue_rows parse_date (stocks_df T) (companies_df T) y)
    as [| m rows] eqn:Er; cbn [bind]; intros H; inversion H; subst.
  - left. split; [reflexivity |]. intros m Hm. apply R in Hm. exact Hm.
  - right. exists (m :: rows). split; [reflexivity |]. split; [| exact R].
    exists m. apply R. now left.
Qed.

Lemma perform_analysis_notice_or_scatter_witness :
  perform_analysis iso_date sample 2021
  = Ok (RevenueScatter sample_revenue_2021
          "Revenue Growth vs. Stock Performance (2021)")
  /\ exists m, joined_in_year iso_date sample 2021 m.
Proof.
  assert (E : perform_analysis iso_date sample 2021
              = Ok (RevenueScatter sample_revenue_2021
                      "Revenue Growth vs. Stock Performance (2021)"))
    by (vm_compute; reflexivity).
  split; [exact E |].
  destruct (perform_analysis_notice_or_scatter iso_date sample 2021 _ E)
    as [[N _] | (rows & _ & X & _)].
  - discriminate N.
  - exact X.
Defined.

(** ** The index series *)

Section IndexSeries.

Variable parse_date : string -> option (option Timestamp.t).

Lemma index_selection_is_index_rows (T : Tables) (f t : Z) :
  Forall (to_datetime_succeeds parse_date) (map Index.Date (index_df T)) ->
  index_selection (map (convert_index parse_date) (index_df T)) f t
  = map (fun p => (DateTs (fst p), snd p)) (index_rows parse_date T f t).
Proof.
  unfold index_selection, index_rows.
  induction (index_df T) as [| r rows IH]; intros F; [reflexivity |].
  simpl in F. inversion F as [| ? ? [c' E] F']; subst.
  cbn [map filter flat_map].
  assert (Hd : Index.Date (convert_index parse_date r) = c')
    by (unfold convert_index; simpl; now apply to_datetime_cell_converted).
  assert (Hv : Index.SP500 (convert_index parse_date r) = Index.SP500 r)
    by reflexivity.
  rewrite Hd, (calendar_date_converted _ _ _ E), map_app, <- IH by assumption.
  pose proof (to_datetime_cell_not_text _ _ _ E) as N.
  destruct c' as [x | d |]; simpl in N; try discriminate.
  - rewrite in_years_mask. destruct (in_years f t d); [| reflexivity].
    cbn [map app fst snd]. now rewrite Hd, Hv.
  - reflexivity.
Qed.

End IndexSeries.

(** When the sector pipeline returns, its index series has one entry for
    each index row dated in the window, in the order of the table, labelled
    with the row's date and holding the row's S&P500 level; rows of one
    date are not merged. *)
Theorem index_series_is_rows_of_window :
  forall (parse_date : string -> option (option Timestamp.t))
         (self self' : Tables) (selected_sector : string)
         (from_year to_year : Z) (sector_performance index_performance : Series),
    filter_data_by_sector_and_year parse_date self selected_sector from_year to_year
    = (Ok (sector_performance, index_performance), self') ->
    index_performance
    = map (fun p => (DateTs (fst p), snd p))
          (index_rows parse_date self from_year to_year).
Proof.
  intros parse_date T T' sector f t sp ip H.
  apply filter_data_Ok in H. destruct H as (_ & Fi & -> & _ & ->).
  cbn [converted_tables index_df]. now apply index_selection_is_index_rows.
Qed.

Lemma index_series_is_rows_of_window_witness :
  sample_index_series
  = map (fun p => (DateTs (fst p), snd p)) (index_rows iso_date sample 2020 2021)
  /\ index_rows iso_date sample 2020 2021
     = [(Timestamp.mk 2020 1 2, px 3257); (Timestamp.mk 2020 1 3, px 3234);
        (Timestamp.mk 2021 3 1, px 3901)].
Proof.
  split.
  - apply (index_series_is_rows_of_window iso_date sample
             (converted_tables iso_date sample) "Technology" 2020 2021
             sample_sector_series sample_index_series).
    vm_compute. reflexivity.
  - vm_compute. reflexivity.
Defined.

(** ** The values of the sector series *)

Lemma mean_None (col : list (option Q)) :
  mean col = None <-> forall v, ~ In (Some v) col.
Proof.
  unfold mean. destruct (dropna col) as [| x vs] eqn:E.
  - split; [| reflexivity]. intros _ v Hv. apply dropna_In in Hv.
    now rewrite E in Hv.
  - split; [discriminate |]. intros H. exfalso. apply (H x).
    apply dropna_In. rewrite E. now left.
Qed.

(** The entry of the sector series at a date of the sector's rows. *)
Lemma sector_series_value
  (parse_date : string -> option (option Timestamp.t))
  (T : Tables) (sector : string) (f t : Z) (d : Timestamp.t) :
  Forall (to_datetime_succeeds parse_date) (map Stock.Date (stocks_df T)) ->
  In d (distinct_dates (sector_rows parse_date T sector f t)) ->
  series_get
    (groupby_Date_Close_mean
       (sector_selection (map (convert_stock parse_date) (stocks_df T))
                         (companies_df T) sector f t)) d
  = Some (mean (closes_on d (sector_rows parse_date T sector f t))).
Proof.
  intros Fs Hd.
  pose proof (selection_is_sector_rows parse_date T sector f t Fs) as Hsel.
  set (rows := sector_rows parse_date T sector f t) in *.
  set (df := sector_selection (map (convert_stock parse_date) (stocks_df T))
                              (companies_df T) sector f t) in *.
  assert (Hk : In d (group_keys (map SectorMerged.Date df))).
  { rewrite dated_close_dates, Hsel, map_map.
    change (map (fun x => fst (DateTs (fst x), snd x)) rows)
      with (map (fun x => DateTs (fst x)) rows).
    rewrite <- (map_map fst DateTs), group_keys_dates.
    unfold distinct_dates in Hd. now apply nodup_In in Hd. }
  unfold series_get, groupby_Date_Close_mean.
  rewrite (find_group
             (fun k => mean (map SectorMerged.Close
                                 (filter (fun r => date_is k (SectorMerged.Date r)) df)))
             d _ Hk).
  cbn [option_map snd]. do 2 f_equal.
  rewrite closes_of_group, Hsel. apply closes_on_dated.
Qed.

(** When the sector pipeline returns, the entry of the sector series at a
    date of the sector's rows is NaN exactly when every Close of the
    sector's rows of that date is missing, and a number exactly when one of
    them is present. *)
Theorem sector_series_nan_iff_all_missing :
  forall (parse_date : string -> option (option Timestamp.t))
         (self self' : Tables) (selected_sector : string)
         (from_year to_year : Z) (sector_performance index_performance : Series)
         (d : Timestamp.t),
    filter_data_by_sector_and_year parse_date self selected_sector from_year to_year
    = (Ok (sector_performance, index_performance), self') ->
    In d (distinct_dates
            (sector_rows parse_date self selected_sector from_year to_year)) ->
    (series_get sector_performance d = Some None
     <-> forall v,
           ~ In (Some v)
                (closes_on d (sector_rows parse_date self selected_sector
                                from_year to_year)))
    /\ ((exists v, series_get sector_performance d = Some (Some v))
        <-> has_value (closes_on d (sector_rows parse_date self selected_sector
                                      from_year to_year))).
Proof.
  intros parse_date T T' sector f t sp ip d H Hd.
  apply filter_data_Ok in H. destruct H as (Fs & _ & -> & -> & _).
  cbn [converted_tables stocks_df companies_df].
  rewrite (sector_series_value parse_date T sector f t d Fs Hd).
  set (col := closes_on d (sector_rows parse_date T sector f t)).
  pose proof (mean_None col) as M. split.
  - rewrite <- M. split; intros H; [now inversion H | now rewrite H].
  - unfold has_value. destruct (mean col) as [v |] eqn:E.
    + split; [intros _ | intros _; now exists v].
      destruct (dropna col) as [| x vs] eqn:D.
      * unfold mean in E. rewrite D in E. discriminate.
      * exists x. apply dropna_In. rewrite D. now left.
    + split.
      * intros [v H]. inversion H.
      * intros [v H]. exfalso. destruct M as [M _]. exact (M eq_refl v H).
Qed.

Lemma sector_series_nan_iff_all_missing_witness :
  series_get sample_sector_series (Timestamp.mk 2020 1 3) = Some None
  /\ closes_on (Timestamp.mk 2020 1 3)
       (sector_rows iso_date sample "Technology" 2020 2021) = [None]
  /\ exists v, series_get sample_sector_series (Timestamp.mk 2020 1 2) = Some (Some v).
Proof.
  assert (E : filter_data_by_sector_and_year iso_date sample "Technology" 2020 2021
              = (Ok (sample_sector_series, sample_index_series),
                 converted_tables iso_date sample))
    by (vm_compute; reflexivity).
  split; [| split; [vm_compute; reflexivity |]].
  - destruct (sector_series_nan_iff_all_missing iso_date sample _ "Technology"
                2020 2021 _ _ (Timestamp.mk 2020 1 3) E) as [N _].
    + vm_compute. auto.
    + apply N. vm_compute. intros v H. intuition discriminate.
  - destruct (sector_series_nan_iff_all_missing iso_date sample _ "Technology"
                2020 2021 _ _ (Timestamp.mk 2020 1 2) E) as [_ B].
    + vm_compute. auto.
    + apply B. exists (75 # 1)%Q. vm_compute. auto.
Defined.

(** ** The monthly window: labels, rows and the dates of the extrema *)

Lemma filter_stock_data_rows_witness :
  filter_stock_data (map (convert_stock iso_date) sample_stocks) sample_companies
    "Apple Inc." 1 2020
  = Ok [(0%nat, Stock.mk (DateTs (Timestamp.mk 2020 1 2)) "AAPL"
                         (px 74) (px 75) (px 73) (px 75));
        (3%nat, Stock.mk (DateTs (Timestamp.mk 2020 1 3)) "AAPL"
                         (px 74) (px 76) (px 74) None)]
  /\ nth_error (map (convert_stock iso_date) sample_stocks) 3
     = Some (Stock.mk (DateTs (Timestamp.mk 2020 1 3)) "AAPL"
                      (px 74) (px 76) (px 74) None).
Proof.
  assert (E : filter_stock_data (map (convert_stock iso_date) sample_stocks)
                sample_companies "Apple Inc." 1 2020
              = Ok [(0%nat, Stock.mk (DateTs (Timestamp.mk 2020 1 2)) "AAPL"
                                     (px 74) (px 75) (px 73) (px 75));
                    (3%nat, Stock.mk (DateTs (Timestamp.mk 2020 1 3)) "AAPL"
                                     (px 74) (px 76) (px 74) None)])
    by (vm_compute; reflexivity).
  split; [exact E |].
  apply (filter_stock_data_rows
           (map (convert_stock iso_date) sample_stocks) sample_companies
           "Apple Inc." 1 2020 []
           [Company.mk "MSFT" "Microsoft" "Microsoft Corporation"
                       (Some "Technology") (Some (17 # 100));
            Company.mk "XOM" "Exxon Mobil" "Exxon Mobil Corporation"
                       (Some "Energy") (Some (-4 # 100))]
           (Company.mk "AAPL" "Apple Inc." "Apple Inc." (Some "Technology")
                       (Some (2 # 100)))
           _ eq_refl eq_refl (fun c' (H : In c' []) => match H with end) E
           3%nat).
  simpl. now right; left.
Defined.

Lemma range_index_labels_from {A : Type} (p : nat * A -> bool) (l : list A) (a : nat) :
  StronglySorted Nat.lt (map fst (filter p (combine (seq a (List.length l)) l))).
Proof.
  revert a. induction l as [| x l IH]; intros a; simpl; [constructor |].
  assert (B : Forall (Nat.lt a)
                (map fst (filter p (combine (seq (S a) (List.length l)) l)))).
  { apply Forall_forall. intros i Hi. apply in_map_iff in Hi.
    destruct Hi as ([i' r] & <- & Hi). apply filter_In in Hi. destruct Hi as [Hi _].
    apply range_index_from_In in Hi. simpl. unfold Nat.lt. lia. }
  destruct (p (a, x)); simpl.
  - constructor; [apply IH | exact B].
  - apply IH.
Qed.

Lemma filter_stock_data_labels
  (stock_df : list Stock.row) (companies_df : list Company.row)
  (company_shortname : string) (month year : Z) (df : Indexed Stock.row) :
  filter_stock_data stock_df companies_df company_shortname month year = Ok df ->
  StronglySorted Nat.lt (map fst df).
Proof.
  unfold filter_stock_data.
  destruct (filter _ companies_df) as [| c cs]; [discriminate |].
  destruct (dt_accessor (map Stock.Date stock_df)); cbn [bind]; [| discriminate].
  intros H. inversion H. apply range_index_labels_from.
Qed.

Lemma labels_sorted_NoDup (l : list nat) : StronglySorted Nat.lt l -> NoDup l.
Proof.
  induction 1 as [| i l S IH F]; constructor; auto.
  intros Hi. rewrite Forall_forall in F. specialize (F i Hi).
  unfold Nat.lt in F. lia.
Qed.

(** The frame [filter_stock_data] returns keeps the rows in the order of
    the stock table: its labels ascend strictly, so no two rows share one,
    and each label is a position of the stock table. *)
Theorem filter_stock_data_keeps_order :
  forall (stock_df : list Stock.row) (companies_df : list Company.row)
         (company_shortname : string) (month year : Z) (df : Indexed Stock.row),
    filter_stock_data stock_df companies_df company_shortname month year = Ok df ->
    StronglySorted Nat.lt (map fst df)
    /\ NoDup (map fst df)
    /\ Forall (fun i => (i < List.length stock_df)%nat) (map fst df).
Proof.
  intros stock_df companies name month year df H.
  pose proof (filter_stock_data_labels _ _ _ _ _ _ H) as S.
  split; [exact S |]. split; [now apply labels_sorted_NoDup |].
  revert H. unfold filter_stock_data.
  destruct (filter _ companies) as [| c cs]; [discriminate |].
  destruct (dt_accessor (map Stock.Date stock_df)); cbn [bind]; [| discriminate].
  intros H. inversion H. apply Forall_forall. intros i Hi.
  apply in_map_iff in Hi. destruct Hi as ([i' r] & <- & Hi).
  apply filter_In in Hi. destruct Hi as [Hi _]. apply range_index_In in Hi.
  simpl. apply nth_error_Some. congruence.
Qed.

Lemma filter_stock_data_keeps_order_witness :
  filter_stock_data (map (convert_stock iso_date) sample_stocks) sample_companies
    "Apple Inc." 1 2020
  = Ok [(0%nat, Stock.mk (DateTs (Timestamp.mk 2020 1 2)) "AAPL"
                         (px 74) (px 75) (px 73) (px 75));
        (3%nat, Stock.mk (DateTs (Timestamp.mk 2020 1 3)) "AAPL"
                         (px 74) (px 76) (px 74) None)]
  /\ NoDup [0%nat; 3%nat].
Proof.
  assert (E : filter_stock_data (map (convert_stock iso_date) sample_stocks)
                sample_companies "Apple Inc." 1 2020
              = Ok [(0%nat, Stock.mk (DateTs (Timestamp.mk 2020 1 2)) "AAPL"
                                     (px 74) (px 75) (px 73) (px 75));
                    (3%nat, Stock.mk (DateTs (Timestamp.mk 2020 1 3)) "AAPL"
                                     (px 74) (px 76) (px 74) None)])
    by (vm_compute; reflexivity).
  split; [exact E |].
  destruct (filter_stock_data_keeps_order _ _ _ _ _ _ E) as (_ & N & _).
  exact N.
Defined.

Lemma loc_Date_unique (df : Indexed Stock.row) (i : nat) (r : Stock.row) :
  NoDup (map fst df) -> In (i, r) df -> loc_Date df (Some i) = [Stock.Date r].
Proof.
  unfold loc_Date. induction df as [| [j x] df IH]; simpl; intros N H; [tauto |].
  inversion N as [| ? ? Hn N']; subst.
  destruct H as [E | H].
  - inversion E; subst. rewrite Nat.eqb_refl. simpl. f_equal.
    replace (filter (fun ir => Nat.eqb (fst ir) i) df) with (@nil (nat * Stock.row));
      [reflexivity |].
    symmetry. apply no_match_filter. intros [k y] Hk. simpl.
    apply Nat.eqb_neq. intros ->. apply Hn.
    apply in_map_iff. exists (i, y). auto.
  - destruct (Nat.eqb j i) eqn:E.
    + apply Nat.eqb_eq in E. subst. exfalso. apply Hn.
      apply in_map_iff. exists (i, r). auto.
    + now apply IH.
Qed.

Lemma find_column (get : Stock.row -> option Q) (m : Q) (df : Indexed Stock.row) :
  find (fun iv => is_value m (snd iv)) (column get df)
  = option_map (fun ir => (fst ir, get (snd ir)))
               (find (fun ir => is_value m (get (snd ir))) df).
Proof.
  induction df as [| [i r] df IH]; simpl; [reflexivity |].
  destruct (is_value m (get r)); [reflexivity | exact IH].
Qed.

Lemma find_value (get : Stock.row -> option Q) (m : Q) (df : Indexed Stock.row) :
  In (Some m) (map (fun ir => get (snd ir)) df) ->
  exists i r, find (fun ir => is_value m (get (snd ir))) df = Some (i, r).
Proof.
  induction df as [| [i r] df IH]; simpl; [tauto |].
  destruct (is_value m (get r)) eqn:E.
  - intros _. now exists i, r.
  - intros [H | H]; [| auto].
    rewrite H in E. simpl in E.
    assert (Qeq_bool m m = true) by (apply Qeq_bool_iff; reflexivity). congruence.
Qed.

(** The date under an extremum: the row the label of the first row that
    holds the value selects, in a frame whose labels are distinct. *)
Lemma loc_of_extremum (get : Stock.row -> option Q) (m : Q) (df : Indexed Stock.row) :
  NoDup (map fst df) ->
  In (Some m) (map (fun ir => get (snd ir)) df) ->
  exists i r,
    find (fun ir => is_value m (get (snd ir))) df = Some (i, r)
    /\ loc_Date df (option_map fst (find (fun iv => is_value m (snd iv))
                                         (column get df)))
       = [Stock.Date r].
Proof.
  intros N H. destruct (find_value get m df H) as (i & r & F).
  exists i, r. split; [exact F |].
  rewrite find_column, F. cbn [option_map fst].
  apply loc_Date_unique; [exact N |]. now apply find_some in F.
Qed.

Lemma column_values (get : Stock.row -> option Q) (df : Indexed Stock.row) :
  map snd (column get df) = map (fun ir => get (snd ir)) df.
Proof. unfold column. rewrite map_map. reflexivity. Qed.

(** In the chart of a frame [filter_stock_data] returned, the high
    annotation stands at one date, that of the first row of the frame whose
    High equals the maximum, and shows the maximum; the low annotation
    stands at the date of the first row whose Low equals the minimum, and
    shows the minimum. *)
Theorem annotations_stand_at_extrema :
  forall (stock_df : list Stock.row) (companies_df : list Company.row)
         (company_shortname : string) (month year : Z) (df : Indexed Stock.row),
    filter_stock_data stock_df companies_df company_shortname month year = Ok df ->
    (has_value (Highs df) ->
     exists i r mx,
       col_max (Highs df) = Some mx
       /\ find (fun ir => is_value mx (Stock.High (snd ir))) df = Some (i, r)
       /\ high_annotations (plot_stock_prices df company_shortname month year)
          = [mkAnnotation [Stock.Date r] (Some mx) "Highest Price: " true 1])
    /\ (has_value (Lows df) ->
        exists i r mn,
          col_min (Lows df) = Some mn
          /\ find (fun ir => is_value mn (Stock.Low (snd ir))) df = Some (i, r)
          /\ low_annotations (plot_stock_prices df company_shortname month year)
             = [mkAnnotation [Stock.Date r] (Some mn) "Lowest Price: " true 1]).
Proof.
  intros stock_df companies name month year df H.
  pose proof (labels_sorted_NoDup _ (filter_stock_data_labels _ _ _ _ _ _ H)) as N.
  split; intros V.
  - destruct (col_max_spec _ V) as (mx & Hm & Hin & _).
    destruct (loc_of_extremum Stock.High mx df N Hin) as (i & r & F & L).
    exists i, r, mx. split; [exact Hm |]. split; [exact F |].
    rewrite plot_high_annotations.
    apply isnull_all_false in V. rewrite V.
    unfold idxmax. rewrite column_values. fold (Highs df). rewrite Hm, L.
    reflexivity.
  - destruct (col_min_spec _ V) as (mn & Hm & Hin & _).
    destruct (loc_of_extremum Stock.Low mn df N Hin) as (i & r & F & L).
    exists i, r, mn. split; [exact Hm |]. split; [exact F |].
    rewrite plot_low_annotations.
    apply isnull_all_false in V. rewrite V.
    unfold idxmin. rewrite column_values. fold (Lows df). rewrite Hm, L.
    reflexivity.
Qed.

Lemma annotations_stand_at_extrema_witness :
  exists df,
    filter_stock_data (map (convert_stock iso_date) sample_stocks) sample_companies
      "Apple Inc." 1 2020 = Ok df
    /\ high_annotations (plot_stock_prices df "Apple Inc." 1 2020)
       = [mkAnnotation [DateTs (Timestamp.mk 2020 1 3)] (px 76)
                       "Highest Price: " true 1]
    /\ exists i r mn,
         col_min (Lows df) = Some mn
         /\ find (fun ir => is_value mn (Stock.Low (snd ir))) df = Some (i, r)
         /\ low_annotations (plot_stock_prices df "Apple Inc." 1 2020)
            = [mkAnnotation [Stock.Date r] (Some mn) "Lowest Price: " true 1].
Proof.
  eexists. split; [vm_compute; reflexivity |]. split; [vm_compute; reflexivity |].
  refine (proj2 (annotations_stand_at_extrema
                   (map (convert_stock iso_date) sample_stocks) sample_companies
                   "Apple Inc." 1 2020 _ _) _).
  - vm_compute. reflexivity.
  - exists (73 # 1)%Q. simpl. auto.
Defined.

(** ** The choice lists *)

Section Unique.

Context {A : Type} (eqb : A -> A -> bool).
Hypothesis eqb_eq : forall a b, eqb a b = true <-> a = b.

Lemma unique_In (x : A) (l : list A) : In x (unique eqb l) <-> In x l.
Proof.
  induction l as [| a l IH]; simpl; [tauto |].
  rewrite filter_In, IH, negb_true_iff. split.
  - tauto.
  - intros [-> | H]; [now left |].
    destruct (eqb a x) eqn:E.
    + apply eqb_eq in E. now left.
    + right. auto.
Qed.

Lemma unique_NoDup (l : list A) : NoDup (unique eqb l).
Proof.
  induction l as [| a l IH]; simpl; constructor.
  - rewrite filter_In, negb_true_iff. intros [_ E].
    assert (eqb a a = true) by now apply eqb_eq. congruence.
  - now apply NoDup_filter.
Qed.

End Unique.

Lemma insort_In (x s : string) (l : list string) :
  In x (insort s l) <-> x = s \/ In x l.
Proof.
  induction l as [| y l IH]; simpl.
  - intuition congruence.
  - destruct (String.compare s y); simpl; try rewrite IH; intuition congruence.
Qed.

Lemma insort_NoDup (s : string) (l : list string) :
  NoDup l -> ~ In s l -> NoDup (insort s l).
Proof.
  induction l as [| y l IH]; simpl; intros N H.
  - constructor; auto.
  - inversion N as [| ? ? Hy N']; subst.
    destruct (String.compare s y); try (constructor; [simpl; tauto | exact N]).
    constructor.
    + rewrite insort_In. intros [-> | Hin]; tauto.
    + apply IH; tauto.
Qed.

Lemma insort_Sorted (s : string) (l : list string) :
  Sorted str_lt l -> ~ In s l -> Sorted str_lt (insort s l).
Proof.
  induction l as [| y l IH]; simpl; intros S H.
  - repeat constructor.
  - inversion S as [| ? ? S' Hd]; subst.
    destruct (String.compare s y) eqn:E.
    + apply String.compare_eq_iff in E. subst. tauto.
    + constructor; [exact S |]. constructor. exact E.
    + assert (Lys : str_lt y s).
      { unfold str_lt. rewrite String.compare_antisym, E. reflexivity. }
      constructor; [apply IH; tauto |].
      destruct l as [| z l]; simpl.
      * constructor. exact Lys.
      * inversion Hd; subst.
        destruct (String.compare s z); constructor; assumption.
Qed.

Lemma sorted_In (x : string) (l : list string) : In x (sorted l) <-> In x l.
Proof.
  unfold sorted. induction l as [| y l IH]; simpl; [tauto |].
  rewrite insort_In, IH. intuition congruence.
Qed.

Lemma sorted_ascending (l : list string) :
  NoDup l -> Sorted str_lt (sorted l) /\ NoDup (sorted l).
Proof.
  unfold sorted. induction 1 as [| y l Hy N [IHs IHn]]; simpl.
  - split; constructor.
  - assert (~ In y (fold_right insort [] l)) by (fold (sorted l); now rewrite sorted_In).
    split; [now apply insort_Sorted | now apply insort_NoDup].
Qed.

(** The company combo box lists the short names of the company table,
    each once, in strictly ascending order. *)
Theorem company_combo_lists_shortnames :
  forall (companies_df : list Company.row),
    Sorted str_lt (setup_company_combo companies_df)
    /\ NoDup (setup_company_combo companies_df)
    /\ forall name,
         In name (setup_company_combo companies_df)
         <-> exists c, In c companies_df /\ Company.Shortname c = name.
Proof.
  intros companies. unfold setup_company_combo.
  destruct (sorted_ascending (unique String.eqb (map Company.Shortname companies)))
    as [S N]; [apply unique_NoDup, String.eqb_eq |].
  split; [exact S |]. split; [exact N |].
  intros name. rewrite sorted_In, (unique_In _ String.eqb_eq), in_map_iff.
  split; intros (c & H1 & H2); exists c; auto.
Qed.

Lemma cell_eqb_eq (a b : option string) : cell_eqb a b = true <-> a = b.
Proof.
  destruct a as [x |], b as [y |]; simpl; try rewrite String.eqb_eq;
    intuition congruence.
Qed.

Lemma present_In (x : string) (l : list (option string)) :
  In x (present l) <-> In (Some x) l.
Proof.
  induction l as [| [y |] l IH]; simpl; try rewrite IH; intuition congruence.
Qed.

Lemma present_NoDup (l : list (option string)) : NoDup l -> NoDup (present l).
Proof.
  induction 1 as [| [y |] l Hy N IH]; simpl; auto; try constructor; auto.
  now rewrite present_In.
Qed.

(** [unique_sectors] fails, on the comparison of a missing Sector with a
    text, exactly when the company table has a record without Sector and a
    record with one; when no record lacks its Sector, it is the list of the
    sectors of the table, each once, in strictly ascending order. *)
Theorem unique_sectors_sorted_or_fails :
  forall (companies_df : list Company.row),
    (unique_sectors companies_df = None
     <-> (exists c, In c companies_df /\ Company.Sector c = None)
         /\ (exists c x, In c companies_df /\ Company.Sector c = Some x))
    /\ ((forall c, In c companies_df -> Company.Sector c <> None) ->
        exists l,
          unique_sectors companies_df = Some (map Some l)
          /\ Sorted str_lt l /\ NoDup l
          /\ forall x, In x l
                       <-> exists c, In c companies_df /\ Company.Sector c = Some x).
Proof.
  intros companies. unfold unique_sectors, sorted_cells.
  set (u := unique cell_eqb (map Company.Sector companies)).
  assert (Hu : forall v, In v u <-> exists c, In c companies /\ Company.Sector c = v).
  { intros v. unfold u. rewrite (unique_In _ cell_eqb_eq), in_map_iff.
    split; intros (c & H1 & H2); exists c; auto. }
  assert (Nu : NoDup u) by apply unique_NoDup, cell_eqb_eq.
  split.
  - destruct (forallb is_present u) eqn:P.
    + split; [discriminate |]. intros [(c & Hc & E) _]. exfalso.
      rewrite forallb_forall in P.
      assert (In None u) as I by (apply Hu; eauto).
      specialize (P None I). discriminate.
    + destruct (forallb (fun c => negb (is_present c)) u) eqn:Q.
      * split; [discriminate |]. intros [_ (c & x & Hc & E)]. exfalso.
        rewrite forallb_forall in Q.
        assert (In (Some x) u) as I by (apply Hu; eauto).
        specialize (Q (Some x) I). discriminate.
      * split; [intros _ | reflexivity].
        apply not_true_iff_false in P, Q. rewrite forallb_forall in P, Q.
        split.
        -- destruct (existsb (fun c => negb (is_present c)) u) eqn:X.
           ++ apply existsb_exists in X. destruct X as ([x |] & I & Hx);
                [discriminate |].
              apply Hu in I. exact I.
           ++ exfalso. apply P. intros v Hv.
              destruct v as [x |]; [reflexivity |].
              assert (existsb (fun c => negb (is_present c)) u = true)
                by (apply existsb_exists; exists None; auto).
              congruence.
        -- destruct (existsb is_present u) eqn:X.
           ++ apply existsb_exists in X. destruct X as ([x |] & I & Hx);
                [| discriminate].
              apply Hu in I. destruct I as (c & Hc & E). eauto.
           ++ exfalso. apply Q. intros v Hv.
              destruct v as [x |]; [| reflexivity].
              assert (existsb is_present u = true)
                by (apply existsb_exists; exists (Some x); auto).
              congruence.
  - intros H.
    assert (P : forallb is_present u = true).
    { apply forallb_forall. intros [x |] I; [reflexivity |].
      apply Hu in I. destruct I as (c & Hc & E). now apply H in Hc. }
    rewrite P. exists (sorted (present u)). split; [reflexivity |].
    destruct (sorted_ascending (present u)) as [S N]; [now apply present_NoDup |].
    split; [exact S |]. split; [exact N |].
    intros x. now rewrite sorted_In, present_In, Hu.
Qed.

Example sample_company_combo :
  setup_company_combo sample_companies = ["Apple Inc."; "Exxon Mobil"; "Microsoft"].
Proof. reflexivity. Qed.

Example sample_unique_sectors :
  unique_sectors sample_companies = Some [Some "Energy"; Some "Technology"].
Proof. reflexivity. Qed.

Example mixed_unique_sectors :
  unique_sectors
    (Company.mk "NEW" "Newco" "Newco Inc." None None :: sample_companies)
  = None.
Proof. reflexivity. Qed.

(** ** Sessions: what earlier actions leave for later ones *)

Section SessionFacts.

Variable parse_date : string -> option (option Timestamp.t).

Lemma init_cases (T : Tables) :
  (Forall (to_datetime_succeeds parse_date) (map Stock.Date (stocks_df T))
   /\ MonthlyStockAnalysisGUI_init parse_date T
      = (Ok tt,
         mkTables (map (convert_stock parse_date) (stocks_df T))
                  (companies_df T) (index_df T)))
  \/ (Exists (unreadable parse_date) (map Stock.Date (stocks_df T))
      /\ MonthlyStockAnalysisGUI_init parse_date T = (Raise ValueError, T)).
Proof.
  unfold MonthlyStockAnalysisGUI_init.
  destruct (to_datetime parse_date (map Stock.Date (stocks_df T))) as [ds | e] eqn:E.
  - left. apply to_datetime_Ok in E. destruct E as [-> F].
    split; [exact F |]. now rewrite assign_Date_map.
  - right. apply to_datetime_Raise in E. destruct E as [-> X]. auto.
Qed.

(** A later Analyze of the sector or revenue-growth view reads the same
    from tables whose stock dates are converted. *)
Lemma analyze_after_stock_conversion (a : Analyze) (T : Tables) :
  Forall (to_datetime_succeeds parse_date) (map Stock.Date (stocks_df T)) ->
  fst (analyze parse_date a
         (mkTables (map (convert_stock parse_date) (stocks_df T))
                   (companies_df T) (index_df T)))
  = fst (analyze parse_date a T).
Proof.
  intros Fs. destruct a as [sector f t | y]; cbn [analyze].
  - assert (Fs' : Forall (to_datetime_succeeds parse_date)
                    (map Stock.Date (map (convert_stock parse_date) (stocks_df T))))
      by (rewrite stock_dates_converted; now apply cell_ok_converted).
    destruct (to_datetime parse_date (map Index.Date (index_df T))) as [ds | e] eqn:E.
    + apply to_datetime_Ok in E. destruct E as [_ Fi].
      rewrite (filter_data_complete parse_date T sector f t Fs Fi).
      rewrite filter_data_complete; cbn [stocks_df companies_df index_df];
        [| exact Fs' | exact Fi].
      cbn [fst]. now rewrite convert_stock_idem.
    + rewrite (filter_data_index_raise parse_date T sector f t e Fs E).
      rewrite (filter_data_index_raise parse_date _ sector f t e);
        cbn [stocks_df companies_df index_df]; [reflexivity | exact Fs' | exact E].
  - cbn [fst]. f_equal. now apply merge_dataframes_converted.
Qed.

Lemma analyze_after_step (x : Action) (a : Analyze) (T : Tables) :
  fst (analyze parse_date a (step parse_date x T)) = fst (analyze parse_date a T).
Proof.
  destruct x as [| b]; cbn [step].
  - destruct (init_cases T) as [[Fs ->] | [_ ->]]; cbn [snd].
    + now apply analyze_after_stock_conversion.
    + reflexivity.
  - apply analyze_independent.
Qed.

Lemma not_text_succeeds (col : list DateCell) :
  Forall (fun c => is_text c = false) col ->
  Forall (to_datetime_succeeds parse_date) col.
Proof.
  apply Forall_impl. intros c H. exists c.
  destruct c; simpl in *; try discriminate; reflexivity.
Qed.

Lemma convert_stock_settled (l : list Stock.row) :
  Forall (fun c => is_text c = false) (map Stock.Date l) ->
  map (convert_stock parse_date) l = l.
Proof.
  induction l as [| s l IH]; simpl; intros F; [reflexivity |].
  inversion F; subst. rewrite IH by assumption. f_equal.
  unfold convert_stock. rewrite converted_not_text by assumption.
  now destruct s.
Qed.

(** Once the stock dates are converted, no action changes the stock or the
    company table. *)
Lemma step_settled (x : Action) (T : Tables) :
  Forall (fun c => is_text c = false) (map Stock.Date (stocks_df T)) ->
  stocks_df (step parse_date x T) = stocks_df T
  /\ companies_df (step parse_date x T) = companies_df T.
Proof.
  intros N. pose proof (convert_stock_settled _ N) as C.
  destruct x as [| [sector f t | y]]; cbn [step analyze].
  - destruct (init_cases T) as [[_ ->] | [_ ->]]; cbn [snd stocks_df companies_df];
      auto.
  - destruct (filter_data_by_sector_and_year parse_date T sector f t)
      as [r T'] eqn:E. cbn [snd].
    destruct (filter_data_cases parse_date T sector f t)
      as [(e & _ & H) | [(e & _ & _ & H) | (_ & _ & H)]];
      rewrite E in H; inversion H; subst;
      cbn [converted_tables stocks_df companies_df]; auto.
  - cbn [snd]. auto.
Qed.

Lemma session_settled (history : list Action) (T : Tables) :
  Forall (fun c => is_text c = false) (map Stock.Date (stocks_df T)) ->
  stocks_df (session parse_date history T) = stocks_df T
  /\ companies_df (session parse_date history T) = companies_df T.
Proof.
  revert T. induction history as [| x h IH]; intros T N; [auto |].
  cbn [session fold_left]. fold (session parse_date h (step parse_date x T)).
  destruct (step_settled x T N) as [Es Ec].
  destruct (IH (step parse_date x T)) as [Es' Ec'].
  - now rewrite Es.
  - split; congruence.
Qed.

Lemma analyze_stock_reads (T1 T2 : Tables) (name : string) (month year : Z) :
  stocks_df T1 = stocks_df T2 -> companies_df T1 = companies_df T2 ->
  analyze_stock T1 name month year = analyze_stock T2 name month year.
Proof. unfold analyze_stock. intros -> ->. reflexivity. Qed.

End SessionFacts.

(** Whatever the user did before (opening the monthly window, pressing
    Analyze in the sector or the revenue-growth window, in any number and
    order), an Analyze of the sector or the revenue-growth view returns what
    it returns on the tables as loaded. *)
Theorem analyze_after_any_session :
  forall (parse_date : string -> option (option Timestamp.t))
         (history : list Action) (a : Analyze) (self : Tables),
    fst (analyze parse_date a (session parse_date history self))
    = fst (analyze parse_date a self).
Proof.
  intros parse_date history a. induction history as [| x h IH]; intros T.
  - reflexivity.
  - cbn [session fold_left]. fold (session parse_date h (step parse_date x T)).
    rewrite IH. apply analyze_after_step.
Qed.

(** Once the monthly window is open (its constructor returned), its
    Analyze never fails on the [.dt] accessor and, for a company name of its
    combo box, never fails at all: it shows the chart or the No Data box.
    This stays so after any further actions on the shared tables, which do
    not change what the monthly Analyze returns. *)
Theorem monthly_analyze_after_open :
  forall (parse_date : string -> option (option Timestamp.t))
         (self self' : Tables) (history : list Action)
         (company_shortname : string) (month year : Z),
    MonthlyStockAnalysisGUI_init parse_date self = (Ok tt, self') ->
    analyze_stock (session parse_date history self') company_shortname month year
    = analyze_stock self' company_shortname month year
    /\ analyze_stock self' company_shortname month year <> Raise AttributeError
    /\ (In company_shortname (setup_company_combo (companies_df self')) ->
        exists e, analyze_stock self' company_shortname month year = Ok e).
Proof.
  intros parse_date T T' history name month year H.
  destruct (init_cases parse_date T) as [[Fs E] | [_ E]]; rewrite E in H;
    inversion H; subst T'. clear H E.
  assert (N : Forall (fun c => is_text c = false)
                (map Stock.Date (map (convert_stock parse_date) (stocks_df T))))
    by (rewrite stock_dates_converted; now apply converted_ok).
  split; [| split].
  - destruct (session_settled parse_date history
                (mkTables (map (convert_stock parse_date) (stocks_df T))
                          (companies_df T) (index_df T)) N) as [Es Ec].
    now apply analyze_stock_reads.
  - unfold analyze_stock, filter_stock_data. cbn [stocks_df companies_df].
    rewrite (dt_accessor_ok _ N).
    destruct (filter _ (companies_df T)) as [| c cs]; cbn [bind]; [discriminate |].
    destruct (filter _ (range_index _)); discriminate.
  - cbn [companies_df]. intros I. unfold setup_company_combo in I.
    rewrite sorted_In, (unique_In _ String.eqb_eq), in_map_iff in I.
    destruct I as (c & Ec & Hc).
    unfold analyze_stock, filter_stock_data. cbn [stocks_df companies_df].
    rewrite (dt_accessor_ok _ N).
    destruct (filter (fun c0 => String.eqb (Company.Shortname c0) name)
                     (companies_df T)) as [| c0 cs] eqn:F.
    + exfalso.
      assert (X : In c (filter (fun c0 => String.eqb (Company.Shortname c0) name)
                               (companies_df T)))
        by (apply filter_In; split; [exact Hc | now apply String.eqb_eq]).
      now rewrite F in X.
    + cbn [bind]. destruct (filter _ (range_index _)); eauto.
Qed.

Lemma monthly_analyze_after_open_witness :
  analyze_stock
    (session iso_date [Press (AnalyzeSector "Energy" 2020 2020); OpenMonthly]
             (converted_tables_stock_only iso_date sample))
    "Microsoft" 6 2015
  = analyze_stock (converted_tables_stock_only iso_date sample) "Microsoft" 6 2015
  /\ exists e,
       analyze_stock (converted_tables_stock_only iso_date sample) "Microsoft" 6 2015
       = Ok e.
Proof.
  destruct (monthly_analyze_after_open iso_date sample
              (converted_tables_stock_only iso_date sample)
              [Press (AnalyzeSector "Energy" 2020 2020); OpenMonthly]
              "Microsoft" 6 2015) as (S & _ & R).
  - vm_compute. reflexivity.
  - split; [exact S |]. apply R. vm_compute. auto.
Defined.

(** ** The constructor of the monthly window *)


(** ** The rows of a sector *)

Section SectorRows.

Variable parse_date : string -> option (option Timestamp.t).

Lemma sector_companies_In (companies : list Company.row) (sector sym : string)
  (c : Company.row) :
  In c (sector_companies companies sector sym) <->
  In c companies /\ Company.Symbol c = sym /\ Company.Sector c = Some sector.
Proof.
  unfold sector_companies. rewrite filter_In, andb_true_iff, String.eqb_eq.
  destruct (Company.Sector c) as [x |]; simpl.
  - rewrite String.eqb_eq. intuition congruence.
  - intuition congruence.
Qed.

Lemma in_years_spec (f t : Z) (d : Timestamp.t) :
  in_years f t d = true <-> f <= Timestamp.year d <= t.
Proof. unfold in_years. rewrite andb_true_iff, !Z.leb_le. tauto. Qed.

Lemma sector_rows_In (T : Tables) (sector : string) (f t : Z)
  (d : Timestamp.t) (v : option Q) :
  In (d, v) (sector_rows parse_date T sector f t) <->
  exists s c,
    In s (stocks_df T) /\ In c (companies_df T)
    /\ Company.Symbol c = Stock.Symbol s /\ Company.Sector c = Some sector
    /\ calendar_date parse_date (Stock.Date s) = Some d
    /\ f <= Timestamp.year d <= t /\ v = Stock.Close s.
Proof.
  unfold sector_rows. rewrite in_flat_map. split.
  - intros (s & Hs & H).
    destruct (calendar_date parse_date (Stock.Date s)) as [d' |] eqn:E; [| contradiction].
    destruct (in_years f t d') eqn:Y; [| contradiction].
    apply in_map_iff in H. destruct H as (c & Ec & Hc). inversion Ec; subst.
    apply sector_companies_In in Hc. destruct Hc as (Hc & Sy & Se).
    apply in_years_spec in Y. exists s, c. repeat split; auto; lia.
  - intros (s & c & Hs & Hc & Sy & Se & E & Y & ->).
    exists s. split; [exact Hs |]. rewrite E.
    apply in_years_spec in Y. rewrite Y.
    apply in_map_iff. exists c. split; [reflexivity |].
    apply sector_companies_In. auto.
Qed.

Lemma sector_series_length (T : Tables) (sector : string) (f t : Z) :
  Forall (to_datetime_succeeds parse_date) (map Stock.Date (stocks_df T)) ->
  List.length
    (groupby_Date_Close_mean
       (sector_selection (map (convert_stock parse_date) (stocks_df T))
                         (companies_df T) sector f t))
  = List.length (distinct_dates (sector_rows parse_date T sector f t)).
Proof.
  intros Fs. unfold groupby_Date_Close_mean. rewrite length_map.
  rewrite dated_close_dates, (selection_is_sector_rows parse_date T sector f t Fs).
  rewrite map_map.
  change (map (fun x => fst (DateTs (fst x), snd x))
              (sector_rows parse_date T sector f t))
    with (map (fun x => DateTs (fst x)) (sector_rows parse_date T sector f t)).
  rewrite <- (map_map fst DateTs). apply group_keys_length.
Qed.

Lemma distinct_dates_nil (rows : list (Timestamp.t * option Q)) :
  distinct_dates rows = [] <-> rows = [].
Proof.
  split; [| intros ->; reflexivity].
  destruct rows as [| p rows]; [reflexivity |]. intros H. exfalso.
  assert (I : In (fst p) (distinct_dates (p :: rows)))
    by (unfold distinct_dates; apply nodup_In; now left).
  now rewrite H in I.
Qed.

Lemma one_or_none {A B : Type} (p : A -> bool) (l : list A) (x : B) :
  (List.length (filter p l) <= 1)%nat ->
  map (fun _ => x) (filter p l) = if existsb p l then [x] else [].
Proof.
  intros L. destruct (existsb p l) eqn:E.
  - apply existsb_exists in E. destruct E as (a & Ha & Pa).
    assert (I : In a (filter p l)) by (apply filter_In; auto).
    destruct (filter p l) as [| b [| b' l']]; simpl in *; [tauto | reflexivity | lia].
  - replace (filter p l) with (@nil A); [reflexivity |].
    symmetry. apply no_match_filter. intros a Ha.
    destruct (p a) eqn:Pa; [| reflexivity].
    assert (existsb p l = true) by (apply existsb_exists; eauto). congruence.
Qed.

End SectorRows.

(** When the sector pipeline returns, the sector series is empty exactly
    when no stock row of a company of the sector is dated in the window,
    and the index series is empty exactly when no index row is. *)
Theorem sector_series_empty_iff_no_rows :
  forall (parse_date : string -> option (option Timestamp.t))
         (self self' : Tables) (selected_sector : string)
         (from_year to_year : Z) (sector_performance index_performance : Series),
    filter_data_by_sector_and_year parse_date self selected_sector from_year to_year
    = (Ok (sector_performance, index_performance), self') ->
    (sector_performance = []
     <-> forall s c d,
           In s (stocks_df self) -> In c (companies_df self) ->
           Company.Symbol c = Stock.Symbol s ->
           Company.Sector c = Some selected_sector ->
           calendar_date parse_date (Stock.Date s) = Some d ->
           ~ from_year <= Timestamp.year d <= to_year)
    /\ (index_performance = []
        <-> index_rows parse_date self from_year to_year = []).
Proof.
  intros parse_date T T' sector f t sp ip H.
  apply filter_data_Ok in H. destruct H as (Fs & Fi & -> & -> & ->).
  cbn [converted_tables stocks_df companies_df index_df]. split.
  - pose proof (sector_series_length parse_date T sector f t Fs) as L.
    assert (Hsp : groupby_Date_Close_mean
                    (sector_selection (map (convert_stock parse_date) (stocks_df T))
                                      (companies_df T) sector f t) = []
                  <-> sector_rows parse_date T sector f t = []).
    { rewrite <- distinct_dates_nil.
      destruct (groupby_Date_Close_mean _);
        destruct (distinct_dates _); simpl in L;
        split; intros; try discriminate; reflexivity. }
    rewrite Hsp. clear Hsp L. split.
    + intros E s c d Hs Hc Sy Se Ed Y.
      assert (I : In (d, Stock.Close s) (sector_rows parse_date T sector f t)).
      { apply sector_rows_In. exists s, c. repeat split; auto; lia. }
      now rewrite E in I.
    + intros N.
      destruct (sector_rows parse_date T sector f t) as [| [d v] rows] eqn:E;
        [reflexivity |]. exfalso.
      assert (I : In (d, v) (sector_rows parse_date T sector f t))
        by (rewrite E; now left).
      apply sector_rows_In in I.
      destruct I as (s & c & Hs & Hc & Sy & Se & Ed & Y & _).
      exact (N s c d Hs Hc Sy Se Ed Y).
  - rewrite (index_selection_is_index_rows parse_date T f t Fi).
    split; intros E.
    + now apply map_eq_nil in E.
    + now rewrite E.
Qed.

Lemma sector_series_empty_iff_no_rows_witness :
  fst (filter_data_by_sector_and_year iso_date sample "Energy" 2021 2021)
  = Ok ([], [(DateTs (Timestamp.mk 2021 3 1), px 3901)])
  /\ forall s c d,
       In s (stocks_df sample) -> In c (companies_df sample) ->
       Company.Symbol c = Stock.Symbol s ->
       Company.Sector c = Some "Energy" ->
       calendar_date iso_date (Stock.Date s) = Some d ->
       ~ 2021 <= Timestamp.year d <= 2021.
Proof.
  split; [vm_compute; reflexivity |].
  apply (sector_series_empty_iff_no_rows iso_date sample
           (converted_tables iso_date sample) "Energy" 2021 2021
           [] [(DateTs (Timestamp.mk 2021 3 1), px 3901)]).
  - vm_compute. reflexivity.
  - reflexivity.
Defined.

Lemma sector_rows_eq_stock_rows
  (parse_date : string -> option (option Timestamp.t))
  (T : Tables) (sector : string) (f t : Z) :
  NoDup (map Company.Symbol (companies_df T)) ->
  sector_rows parse_date T sector f t = sector_stock_rows parse_date T sector f t.
Proof.
  intros N. unfold sector_rows, sector_stock_rows.
  apply flat_map_ext. intros s.
  destruct (calendar_date parse_date (Stock.Date s)) as [d |]; [| reflexivity].
  destruct (in_years f t d); [| reflexivity]. cbn [andb].
  unfold sector_companies. apply one_or_none.
  now apply sector_companies_at_most_one.
Qed.

(** With one company record per Symbol, when the sector pipeline returns,
    its sector series has one entry per distinct date among the stock rows
    of the sector's companies dated in the window, each stock row counted
    once, and the entry at such a date is the mean of the Close values of
    those stock rows. *)
Theorem sector_series_means_over_stock_rows :
  forall (parse_date : string -> option (option Timestamp.t))
         (self self' : Tables) (selected_sector : string)
         (from_year to_year : Z) (sector_performance index_performance : Series),
    NoDup (map Company.Symbol (companies_df self)) ->
    filter_data_by_sector_and_year parse_date self selected_sector from_year to_year
    = (Ok (sector_performance, index_performance), self') ->
    List.length sector_performance
    = List.length (distinct_dates
                     (sector_stock_rows parse_date self selected_sector
                                        from_year to_year))
    /\ forall d,
         In d (distinct_dates
                 (sector_stock_rows parse_date self selected_sector
                                    from_year to_year)) ->
         series_get sector_performance d
         = Some (mean (closes_on d
                         (sector_stock_rows parse_date self selected_sector
                                            from_year to_year))).
Proof.
  intros parse_date T T' sector f t sp ip N H.
  apply filter_data_Ok in H. destruct H as (Fs & _ & -> & -> & _).
  cbn [converted_tables stocks_df companies_df].
  rewrite <- (sector_rows_eq_stock_rows parse_date T sector f t N). split.
  - now apply sector_series_length.
  - intros d Hd. now apply sector_series_value.
Qed.

Lemma sector_series_means_over_stock_rows_witness :
  sector_stock_rows iso_date sample "Technology" 2020 2021
  = [(Timestamp.mk 2020 1 2, px 75); (Timestamp.mk 2020 1 2, px 161);
     (Timestamp.mk 2020 1 3, None); (Timestamp.mk 2021 3 1, px 127)]
  /\ List.length sample_sector_series = 3%nat
  /\ series_get sample_sector_series (Timestamp.mk 2021 3 1)
     = Some (mean [px 127]).
Proof.
  split; [vm_compute; reflexivity |].
  destruct (sector_series_means_over_stock_rows iso_date sample
              (converted_tables iso_date sample) "Technology" 2020 2021
              sample_sector_series sample_index_series) as [L M].
  - simpl. nodup_by_computation.
  - vm_compute. reflexivity.
  - split.
    + rewrite L. vm_compute. reflexivity.
    + rewrite (M (Timestamp.mk 2021 3 1)).
      * vm_compute. reflexivity.
      * vm_compute. auto.
Defined.
